(** * Weather anomaly analyzers: a shallow embedding of the three scripts

    The repository holds three variants of [analyze_weather_data]:
    - [dag_day_1.py]: lists from the JSON reply, anomalies relative to the
      window's own mean;
    - [weather.py]: the same lists, anomalies relative to fixed climate
      normals;
    - [dag_1.py]: a pandas [DataFrame], anomalies by absolute deviation of
      the maximum from its mean, with derived columns written into the frame.

    Temperatures are Python floats in the scripts; they are embedded as exact
    rationals ([Q]), compared with [Qlt]/[Qeq] where Python uses [>], [<] and
    [==].  What the scripts print is embedded as a structured report: one
    field per printed value, in print order. *)

From stdpp Require Import gmap strings list fin_maps.
From Stdlib Require Import QArith Qabs Qround Qpower Lqa Sorted.

Local Open Scope Q_scope.

(** ** Python values and exceptions *)

Inductive exception : Type :=
  | ValueError        (* max()/min() of an empty list, list.index miss *)
  | IndexError        (* list subscript out of range *)
  | KeyError          (* missing column or row label *)
  | StatisticsError.  (* statistics.mean of no data *)

Inductive result (A : Type) : Type :=
  | Returned (a : A)
  | Raised (e : exception).
Arguments Returned {A} a.
Arguments Raised {A} e.

#[global] Instance result_ret : MRet result := fun A a => Returned a.
#[global] Instance result_bind : MBind result := fun A B f m =>
  match m with
  | Returned a => f a
  | Raised e => Raised e
  end.

(** Python's [x < y] on numbers. *)
Definition Qlt_bool (x y : Q) : bool :=
  (Qnum x * QDen y <? Qnum y * QDen x)%Z.

(** [max(l)]: keeps the first item and replaces it only by a strictly greater
    one; [ValueError] on an empty list. *)
Fixpoint max_from (best : Q) (l : list Q) : Q :=
  match l with
  | [] => best
  | x :: r => max_from (if Qlt_bool best x then x else best) r
  end.

Definition py_max (l : list Q) : result Q :=
  match l with
  | [] => Raised ValueError
  | x :: r => Returned (max_from x r)
  end.

(** [min(l)]: replaces the kept item only by a strictly smaller one. *)
Fixpoint min_from (best : Q) (l : list Q) : Q :=
  match l with
  | [] => best
  | x :: r => min_from (if Qlt_bool x best then x else best) r
  end.

Definition py_min (l : list Q) : result Q :=
  match l with
  | [] => Raised ValueError
  | x :: r => Returned (min_from x r)
  end.

(** [l.index(x)]: position of the first item equal ([==]) to [x]. *)
Fixpoint index_from (i : nat) (x : Q) (l : list Q) : result nat :=
  match l with
  | [] => Raised ValueError
  | y :: r => if Qeq_bool y x then Returned i else index_from (S i) x r
  end.

Definition py_index (x : Q) (l : list Q) : result nat := index_from 0 x l.

(** [l[i]] for a non-negative [i]. *)
Definition py_getitem {A} (l : list A) (i : nat) : result A :=
  match l !! i with
  | Some a => Returned a
  | None => Raised IndexError
  end.

Definition Qsum (l : list Q) : Q := foldr Qplus 0 l.

Definition Qlen {A} (l : list A) : Q := inject_Z (Z.of_nat (length l)).

(** [statistics.mean(l)]: the exact sum divided by the number of items. *)
Definition statistics_mean (l : list Q) : result Q :=
  match l with
  | [] => Raised StatisticsError
  | _ => Returned (Qsum l / Qlen l)
  end.

(** [for i in range(n): body], the loop state threaded through the body. *)
Fixpoint for_range {St} (body : nat -> St -> result St) (idxs : list nat)
    (s : St) : result St :=
  match idxs with
  | [] => Returned s
  | i :: r => s' ← body i s; for_range body r s'
  end.

Definition range (n : nat) : list nat := seq 0%nat n.

(** ** The JSON reply and the window *)

(** [weather_data['daily']]: three parallel lists. *)
Record daily_records : Type := {
  time : list string;
  temperature_2m_max : list Q;
  temperature_2m_min : list Q
}.

(** [None] stands for every reply the guard [not weather_data or 'daily' not
    in weather_data] rejects. *)
Definition weather_data : Type := option daily_records.

Record DailySample : Type := {
  date : string;
  max_temp : Q;
  min_temp : Q
}.

(** The reply that carries a window of samples. *)
Definition of_window (w : list DailySample) : weather_data :=
  Some {| time := map date w;
          temperature_2m_max := map max_temp w;
          temperature_2m_min := map min_temp w |}.

Inductive anomaly : Type :=
  | Hot (d : string) (t : Q)
  | Cold (d : string) (t : Q).

Definition hot_of (a : anomaly) : list (string * Q) :=
  match a with Hot d t => [(d, t)] | Cold _ _ => [] end.
Definition cold_of (a : anomaly) : list (string * Q) :=
  match a with Cold d t => [(d, t)] | Hot _ _ => [] end.

(** ** dag_day_1.py *)
Module DagDay1.

Definition ANOMALY_THRESHOLD_DEGREES : Q := 5.0.

Record report : Type := {
  records : list (string * Q * Q);
  highest_temp : Q;
  date_of_highest : string;
  lowest_temp : Q;
  date_of_lowest : string;
  avg_max_temp : Q;
  avg_min_temp : Q;
  anomalies : list anomaly;      (* the anomaly lines, in print order *)
  anomalies_found : bool
}.

Inductive output : Type :=
  | NoValidData                  (* "No valid weather data to analyze." *)
  | Report (r : report).

Definition hot_anomalies (r : report) : list (string * Q) :=
  flat_map hot_of (anomalies r).
Definition cold_anomalies (r : report) : list (string * Q) :=
  flat_map cold_of (anomalies r).

Section Analyzer.
(** The module-level constant the function reads when it runs. *)
Variable threshold : Q.

Definition print_record (dates : list string) (max_temps min_temps : list Q)
    (i : nat) (out : list (string * Q * Q)) : result (list (string * Q * Q)) :=
  d ← py_getitem dates i;
  mx ← py_getitem max_temps i;
  mn ← py_getitem min_temps i;
  mret (out ++ [(d, mx, mn)]).

Definition spot (dates : list string) (max_temps min_temps : list Q)
    (avg_max_temp avg_min_temp : Q)
    (i : nat) (st : bool * list anomaly) : result (bool * list anomaly) :=
  mx ← py_getitem max_temps i;
  st1 ← (if Qlt_bool (avg_max_temp + threshold) mx
         then d ← py_getitem dates i;
              mx' ← py_getitem max_temps i;
              mret (true, st.2 ++ [Hot d mx'])
         else mret st);
  mn ← py_getitem min_temps i;
  if Qlt_bool mn (avg_min_temp - threshold)
  then d ← py_getitem dates i;
       mn' ← py_getitem min_temps i;
       mret (true, st1.2 ++ [Cold d mn'])
  else mret st1.

Definition analyze_weather_data (weather_data : weather_data) : result output :=
  match weather_data with
  | None => mret NoValidData
  | Some daily_records =>
      let dates := time daily_records in
      let max_temps := temperature_2m_max daily_records in
      let min_temps := temperature_2m_min daily_records in
      recs ← for_range (print_record dates max_temps min_temps)
                       (range (length dates)) [];
      highest_temp ← py_max max_temps;
      lowest_temp ← py_min min_temps;
      ih ← py_index highest_temp max_temps;
      date_of_highest ← py_getitem dates ih;
      il ← py_index lowest_temp min_temps;
      date_of_lowest ← py_getitem dates il;
      avg_max_temp ← statistics_mean max_temps;
      avg_min_temp ← statistics_mean min_temps;
      st ← for_range (spot dates max_temps min_temps avg_max_temp avg_min_temp)
                     (range (length dates)) (false, []);
      mret (Report {| records := recs;
                      highest_temp := highest_temp;
                      date_of_highest := date_of_highest;
                      lowest_temp := lowest_temp;
                      date_of_lowest := date_of_lowest;
                      avg_max_temp := avg_max_temp;
                      avg_min_temp := avg_min_temp;
                      anomalies := st.2;
                      anomalies_found := st.1 |})
  end.

End Analyzer.

(** The eighth-section example window of the specification. *)
Definition example_window : list DailySample :=
  [ {| date := "2024-01-01"; max_temp := 30; min_temp := 20 |};
    {| date := "2024-01-02"; max_temp := 35; min_temp := 18 |};
    {| date := "2024-01-03"; max_temp := 28; min_temp := 22 |} ].

End DagDay1.

(** ** weather.py *)
Module Weather.

Definition NORMAL_MAX_TEMP_HYD : Q := 29.5.
Definition NORMAL_MIN_TEMP_HYD : Q := 22.5.
Definition ANOMALY_THRESHOLD_DEGREES : Q := 2.5.

(** An anomaly line carries the date, the temperature and the printed
    distance [diff] from the normal. *)
Inductive line : Type :=
  | HotDay (d : string) (t diff : Q)
  | ColdDay (d : string) (t diff : Q).

Record report : Type := {
  records : list (string * Q * Q);
  highest_temp : Q;
  date_of_highest : string;
  lowest_temp : Q;
  date_of_lowest : string;
  anomalies : list line;
  anomalies_found : bool
}.

Inductive output : Type :=
  | NoValidData
  | Report (r : report).

Definition hot_anomalies (r : report) : list (string * Q) :=
  flat_map (fun a => match a with HotDay d t _ => [(d, t)] | ColdDay _ _ _ => [] end)
           (anomalies r).
Definition cold_anomalies (r : report) : list (string * Q) :=
  flat_map (fun a => match a with ColdDay d t _ => [(d, t)] | HotDay _ _ _ => [] end)
           (anomalies r).

Section Analyzer.
(** The three module-level constants the function reads when it runs. *)
Variables normal_max normal_min threshold : Q.

Definition print_record (dates : list string) (max_temps min_temps : list Q)
    (i : nat) (out : list (string * Q * Q)) : result (list (string * Q * Q)) :=
  d ← py_getitem dates i;
  mx ← py_getitem max_temps i;
  mn ← py_getitem min_temps i;
  mret (out ++ [(d, mx, mn)]).

Definition spot (dates : list string) (max_temps min_temps : list Q)
    (i : nat) (st : bool * list line) : result (bool * list line) :=
  mx ← py_getitem max_temps i;
  st1 ← (if Qlt_bool (normal_max + threshold) mx
         then mx1 ← py_getitem max_temps i;
              let diff := mx1 - normal_max in
              d ← py_getitem dates i;
              mx2 ← py_getitem max_temps i;
              mret (true, st.2 ++ [HotDay d mx2 diff])
         else mret st);
  mn ← py_getitem min_temps i;
  if Qlt_bool mn (normal_min - threshold)
  then mn1 ← py_getitem min_temps i;
       let diff := normal_min - mn1 in
       d ← py_getitem dates i;
       mn2 ← py_getitem min_temps i;
       mret (true, st1.2 ++ [ColdDay d mn2 diff])
  else mret st1.

Definition analyze_weather_data (weather_data : weather_data) : result output :=
  match weather_data with
  | None => mret NoValidData
  | Some daily_records =>
      let dates := time daily_records in
      let max_temps := temperature_2m_max daily_records in
      let min_temps := temperature_2m_min daily_records in
      recs ← for_range (print_record dates max_temps min_temps)
                       (range (length dates)) [];
      highest_temp ← py_max max_temps;
      lowest_temp ← py_min min_temps;
      ih ← py_index highest_temp max_temps;
      date_of_highest ← py_getitem dates ih;
      il ← py_index lowest_temp min_temps;
      date_of_lowest ← py_getitem dates il;
      st ← for_range (spot dates max_temps min_temps)
                     (range (length dates)) (false, []);
      mret (Report {| records := recs;
                      highest_temp := highest_temp;
                      date_of_highest := date_of_highest;
                      lowest_temp := lowest_temp;
                      date_of_lowest := date_of_lowest;
                      anomalies := st.2;
                      anomalies_found := st.1 |})
  end.

End Analyzer.

End Weather.

(** ** dag_1.py *)
Module Dag1.

(** [Series.idxmax()]: the label of the first occurrence of the maximum; the
    frames built by [get_weather_data] have the default index, so the label
    is the position. *)
Fixpoint argmax_from (bi : nat) (best : Q) (i : nat) (l : list Q) : nat :=
  match l with
  | [] => bi
  | x :: r => if Qlt_bool best x then argmax_from i x (S i) r
              else argmax_from bi best (S i) r
  end.

Definition idxmax (l : list Q) : result nat :=
  match l with
  | [] => Raised ValueError
  | x :: r => Returned (argmax_from 0 x 1 r)
  end.

Fixpoint argmin_from (bi : nat) (best : Q) (i : nat) (l : list Q) : nat :=
  match l with
  | [] => bi
  | x :: r => if Qlt_bool x best then argmin_from i x (S i) r
              else argmin_from bi best (S i) r
  end.

Definition idxmin (l : list Q) : result nat :=
  match l with
  | [] => Raised ValueError
  | x :: r => Returned (argmin_from 0 x 1 r)
  end.

(** [Series.mean()] of a non-empty column (the caller's guard excludes the
    empty one). *)
Definition series_mean (l : list Q) : Q := Qsum l / Qlen l.

(** One line of the frame [get_weather_data] builds; [date] holds the text
    [strftime('%Y-%m-%d')] prints for the row's timestamp. *)
Record row : Type := {
  date : string;
  max_temp_celsius : Q;
  min_temp_celsius : Q
}.

(** The frame: its three columns row by row, and every further numeric
    column by name. *)
Record DataFrame : Type := {
  rows : list row;
  derived : gmap string (list Q)
}.

(** [df.empty] *)
Definition empty (df : DataFrame) : bool :=
  match rows df with [] => true | _ => false end.

(** [df[name] = values], for a name other than the three base columns. *)
Definition set_column (df : DataFrame) (name : string) (values : list Q)
  : DataFrame :=
  {| rows := rows df; derived := <[name := values]> (derived df) |}.

(** [df[name]], for a name other than the three base columns. *)
Definition get_column (df : DataFrame) (name : string) : result (list Q) :=
  match derived df !! name with
  | Some c => Returned c
  | None => Raised KeyError
  end.

(** [df.loc[label]] *)
Definition loc (df : DataFrame) (label : nat) : result row :=
  match rows df !! label with
  | Some r => Returned r
  | None => Raised KeyError
  end.

(** [df.loc[label][name]] *)
Definition cell (df : DataFrame) (name : string) (label : nat) : result Q :=
  c ← get_column df name;
  match c !! label with
  | Some x => Returned x
  | None => Raised KeyError
  end.

Inductive direction : Type := above | below.

Record report : Type := {
  highest_temp : Q;
  date_of_highest_temp : string;
  lowest_temp : Q;
  date_of_lowest_temp : string;
  max_fluctuation : Q;
  date_of_anomaly : string;
  avg_max_temp : Q;
  (* day_date, day_temp, deviation, direction of each printed line *)
  significant_deviations : list (string * Q * Q * direction)
}.

Inductive output : Type :=
  | NoData                       (* "No data available to analyze." *)
  | Analysis (r : report).

Definition analyze_frame (df : DataFrame) : result (report * DataFrame) :=
  ih ← idxmax (map max_temp_celsius (rows df));
  highest_temp_record ← loc df ih;
  let highest_temp := max_temp_celsius highest_temp_record in
  let date_of_highest_temp := date highest_temp_record in
  il ← idxmin (map min_temp_celsius (rows df));
  lowest_temp_record ← loc df il;
  let lowest_temp := min_temp_celsius lowest_temp_record in
  let date_of_lowest_temp := date lowest_temp_record in
  let df := set_column df "temp_fluctuation"
              (map (fun r => max_temp_celsius r - min_temp_celsius r) (rows df)) in
  fl ← get_column df "temp_fluctuation";
  ia ← idxmax fl;
  anomaly_record ← loc df ia;
  max_fluctuation ← cell df "temp_fluctuation" ia;
  let date_of_anomaly := date anomaly_record in
  let avg_max_temp := series_mean (map max_temp_celsius (rows df)) in
  let df := set_column df "deviation_from_avg"
              (map (fun r => Qabs (max_temp_celsius r - avg_max_temp)) (rows df)) in
  dev ← get_column df "deviation_from_avg";
  let significant_deviations :=
    List.filter (fun rd => Qlt_bool 2.0 rd.2) (zip (rows df) dev) in
  let printed :=
    map (fun rd : row * Q =>
           let day_temp := max_temp_celsius rd.1 in
           let day_date := date rd.1 in
           let deviation := rd.2 in
           let direction :=
             if Qlt_bool avg_max_temp day_temp then above else below in
           (day_date, day_temp, deviation, direction))
        significant_deviations in
  mret ({| highest_temp := highest_temp;
           date_of_highest_temp := date_of_highest_temp;
           lowest_temp := lowest_temp;
           date_of_lowest_temp := date_of_lowest_temp;
           max_fluctuation := max_fluctuation;
           date_of_anomaly := date_of_anomaly;
           avg_max_temp := avg_max_temp;
           significant_deviations := printed |}, df).

(** The function returns nothing; the second component is the caller's frame
    as the call leaves it. *)
Definition analyze_weather_data (df : option DataFrame)
  : result (output * option DataFrame) :=
  match df with
  | None => mret (NoData, None)
  | Some df =>
      if empty df then mret (NoData, Some df)
      else rd ← analyze_frame df; mret (Analysis rd.1, Some rd.2)
  end.

End Dag1.

(** The frame [get_weather_data] builds from a window of samples: the three
    renamed columns and nothing else. *)
Definition to_row (s : DailySample) : Dag1.row :=
  {| Dag1.date := date s;
     Dag1.max_temp_celsius := max_temp s;
     Dag1.min_temp_celsius := min_temp s |}.

Definition frame_of_window (w : list DailySample) : Dag1.DataFrame :=
  {| Dag1.rows := map to_row w; Dag1.derived := ∅ |}.

(** ** Floating point *)

(** The scripts compute on Python floats, IEEE doubles.  Each of [+], [-]
    and [/] returns the exact result rounded to the nearest double, ties to
    even; comparisons and [abs] are exact.  The modules above are the
    scripts with that rounding left out; the modules below carry it as
    [rnd].  [binary64] is the rounding itself, on the rationals, with the
    exponent range left unbounded (no overflow and no gradual underflow:
    temperatures are far from both). *)

(** Nearest integer, ties to even. *)
Definition rne (x : Q) : Z :=
  let f := Qfloor x in
  match Qcompare (x - inject_Z f) (1 # 2) with
  | Lt => f
  | Gt => (f + 1)%Z
  | Eq => if Z.even f then f else (f + 1)%Z
  end.

(** The exponent [e] with [2^e <= x < 2^(e+1)], for [0 < x]. *)
Definition ilog2 (x : Q) : Z :=
  let d := (Z.log2 (Qnum x) - Z.log2 (QDen x))%Z in
  if Qle_bool (2 ^ d) x then d else (d - 1)%Z.

(** Nearest double: 53 significant bits. *)
Definition binary64 (x : Q) : Q :=
  if Qeq_bool x 0 then 0
  else let k := (ilog2 (Qabs x) - 52)%Z in
       Qred (inject_Z (rne (x / 2 ^ k)) * 2 ^ k).

(** A float sum from left to right, as numpy adds a column of fewer than
    eight cells. *)
Definition fl_sum (rnd : Q -> Q) (l : list Q) : Q :=
  foldl (fun a x => rnd (a + x)) 0 l.

(** A sample as the JSON parser reads its decimal texts: each number is the
    nearest double. *)
Definition parsed (d : string) (mx mn : Q) : DailySample :=
  {| date := d; max_temp := binary64 mx; min_temp := binary64 mn |}.

(** ** dag_day_1.py, in floating point *)
Module DagDay1F.

Section Analyzer.
Variable rnd : Q -> Q.
(** The module-level constant the function reads when it runs. *)
Variable threshold : Q.

(** [statistics.mean(l)]: the exact sum divided by the number of items,
    rounded once. *)
Definition statistics_mean (l : list Q) : result Q :=
  match l with
  | [] => Raised StatisticsError
  | _ => Returned (rnd (Qsum l / Qlen l))
  end.

Definition spot (dates : list string) (max_temps min_temps : list Q)
    (avg_max_temp avg_min_temp : Q)
    (i : nat) (st : bool * list anomaly) : result (bool * list anomaly) :=
  mx ← py_getitem max_temps i;
  st1 ← (if Qlt_bool (rnd (avg_max_temp + threshold)) mx
         then d ← py_getitem dates i;
              mx' ← py_getitem max_temps i;
              mret (true, st.2 ++ [Hot d mx'])
         else mret st);
  mn ← py_getitem min_temps i;
  if Qlt_bool mn (rnd (avg_min_temp - threshold))
  then d ← py_getitem dates i;
       mn' ← py_getitem min_temps i;
       mret (true, st1.2 ++ [Cold d mn'])
  else mret st1.

Definition analyze_weather_data (weather_data : weather_data)
  : result DagDay1.output :=
  match weather_data with
  | None => mret DagDay1.NoValidData
  | Some daily_records =>
      let dates := time daily_records in
      let max_temps := temperature_2m_max daily_records in
      let min_temps := temperature_2m_min daily_records in
      recs ← for_range (DagDay1.print_record dates max_temps min_temps)
                       (range (length dates)) [];
      highest_temp ← py_max max_temps;
      lowest_temp ← py_min min_temps;
      ih ← py_index highest_temp max_temps;
      date_of_highest ← py_getitem dates ih;
      il ← py_index lowest_temp min_temps;
      date_of_lowest ← py_getitem dates il;
      avg_max_temp ← statistics_mean max_temps;
      avg_min_temp ← statistics_mean min_temps;
      st ← for_range (spot dates max_temps min_temps avg_max_temp avg_min_temp)
                     (range (length dates)) (false, []);
      mret (DagDay1.Report
              {| DagDay1.records := recs;
                 DagDay1.highest_temp := highest_temp;
                 DagDay1.date_of_highest := date_of_highest;
                 DagDay1.lowest_temp := lowest_temp;
                 DagDay1.date_of_lowest := date_of_lowest;
                 DagDay1.avg_max_temp := avg_max_temp;
                 DagDay1.avg_min_temp := avg_min_temp;
                 DagDay1.anomalies := st.2;
                 DagDay1.anomalies_found := st.1 |})
  end.

End Analyzer.

End DagDay1F.

(** ** dag_1.py, in floating point and with the table it prints first *)
Module Dag1F.

Record report : Type := {
  (* the frame as [print(df.to_string(index=False))] shows it *)
  table : Dag1.DataFrame;
  highest_temp : Q;
  date_of_highest_temp : string;
  lowest_temp : Q;
  date_of_lowest_temp : string;
  max_fluctuation : Q;
  date_of_anomaly : string;
  avg_max_temp : Q;
  (* day_date, day_temp, deviation, direction of each printed line *)
  significant_deviations : list (string * Q * Q * Dag1.direction)
}.

Inductive output : Type :=
  | NoData                       (* "No data available to analyze." *)
  | Analysis (r : report).

Section Analyzer.
Variable rnd : Q -> Q.
(** The float sum of a column as pandas computes it; the order of its
    additions is not fixed by this repository. *)
Variable series_sum : list Q -> Q.

(** [Series.mean()] of a non-empty column: the float sum divided by the
    count. *)
Definition series_mean (l : list Q) : Q := rnd (series_sum l / Qlen l).

Definition analyze_frame (df : Dag1.DataFrame)
  : result (report * Dag1.DataFrame) :=
  let table := df in
  ih ← Dag1.idxmax (map Dag1.max_temp_celsius (Dag1.rows df));
  highest_temp_record ← Dag1.loc df ih;
  let highest_temp := Dag1.max_temp_celsius highest_temp_record in
  let date_of_highest_temp := Dag1.date highest_temp_record in
  il ← Dag1.idxmin (map Dag1.min_temp_celsius (Dag1.rows df));
  lowest_temp_record ← Dag1.loc df il;
  let lowest_temp := Dag1.min_temp_celsius lowest_temp_record in
  let date_of_lowest_temp := Dag1.date lowest_temp_record in
  let df := Dag1.set_column df "temp_fluctuation"
              (map (fun r => rnd (Dag1.max_temp_celsius r
                                  - Dag1.min_temp_celsius r))
                   (Dag1.rows df)) in
  fl ← Dag1.get_column df "temp_fluctuation";
  ia ← Dag1.idxmax fl;
  anomaly_record ← Dag1.loc df ia;
  max_fluctuation ← Dag1.cell df "temp_fluctuation" ia;
  let date_of_anomaly := Dag1.date anomaly_record in
  let avg_max_temp := series_mean (map Dag1.max_temp_celsius (Dag1.rows df)) in
  let df := Dag1.set_column df "deviation_from_avg"
              (map (fun r => Qabs (rnd (Dag1.max_temp_celsius r - avg_max_temp)))
                   (Dag1.rows df)) in
  dev ← Dag1.get_column df "deviation_from_avg";
  let significant_deviations :=
    List.filter (fun rd => Qlt_bool 2.0 rd.2) (zip (Dag1.rows df) dev) in
  let printed :=
    map (fun rd : Dag1.row * Q =>
           let day_temp := Dag1.max_temp_celsius rd.1 in
           let day_date := Dag1.date rd.1 in
           let deviation := rd.2 in
           let direction :=
             if Qlt_bool avg_max_temp day_temp then Dag1.above else Dag1.below in
           (day_date, day_temp, deviation, direction))
        significant_deviations in
  mret ({| table := table;
           highest_temp := highest_temp;
           date_of_highest_temp := date_of_highest_temp;
           lowest_temp := lowest_temp;
           date_of_lowest_temp := date_of_lowest_temp;
           max_fluctuation := max_fluctuation;
           date_of_anomaly := date_of_anomaly;
           avg_max_temp := avg_max_temp;
           significant_deviations := printed |}, df).

(** The function returns nothing; the second component is the caller's frame
    as the call leaves it. *)
Definition analyze_weather_data (df : option Dag1.DataFrame)
  : result (output * option Dag1.DataFrame) :=
  match df with
  | None => mret (NoData, None)
  | Some df =>
      if Dag1.empty df then mret (NoData, Some df)
      else rd ← analyze_frame df; mret (Analysis rd.1, Some rd.2)
  end.

End Analyzer.

(** What a report says apart from the table. *)
Definition statistics (r : report)
  : Q * string * Q * string * Q * string * Q
    * list (string * Q * Q * Dag1.direction) :=
  (highest_temp r, date_of_highest_temp r, lowest_temp r,
   date_of_lowest_temp r, max_fluctuation r, date_of_anomaly r,
   avg_max_temp r, significant_deviations r).

End Dag1F.

(** ** dag_1.py: building the frame, and the script body *)
Module Dag1Script.

(** What [requests.get], [raise_for_status] and [response.json] leave behind:
    some exception, or the parsed body.  The lists hold numbers (no
    nulls). *)
Inductive response : Type :=
  | Failed
  (* the ['daily'] entry with its three lists, if the body has one *)
  | Body (daily : option daily_records)
  (* a ['daily'] entry without ['time'] *)
  | Timeless
  (* a ['daily'] entry with ['time'] and at most one temperature list *)
  | Partial (time : list string) (present : option (list Q)).

(** What [get_weather_data] hands over: a frame with both temperature
    columns, or one that lacks a temperature column and has so many rows. *)
Inductive frame : Type :=
  | Complete (df : Dag1.DataFrame)
  | Lacking (rows : nat).

Section Fetch.
(** [pd.to_datetime] on the date column, read back through
    [strftime('%Y-%m-%d')]: one text per cell, or [None] when a cell does not
    parse and the call raises. *)
Variable to_datetime : list string -> option (list string).
(** The float arithmetic of the analyzer. *)
Variable rnd : Q -> Q.
Variable series_sum : list Q -> Q.

(** [pd.DataFrame(data['daily'])] with the columns renamed: refused with
    [ValueError] unless the three lists have the same length. *)
Definition DataFrame (daily : daily_records) : option Dag1.DataFrame :=
  if decide (length (time daily) = length (temperature_2m_max daily) /\
             length (time daily) = length (temperature_2m_min daily))
  then Some {| Dag1.rows :=
                 zip_with (fun dm mn =>
                             {| Dag1.date := dm.1;
                                Dag1.max_temp_celsius := dm.2;
                                Dag1.min_temp_celsius := mn |})
                          (zip (time daily) (temperature_2m_max daily))
                          (temperature_2m_min daily);
               Dag1.derived := ∅ |}
  else None.

(** [df['date'] = pd.to_datetime(df['date'])] *)
Definition convert_dates (df : Dag1.DataFrame) : option Dag1.DataFrame :=
  dates ← to_datetime (map Dag1.date (Dag1.rows df));
  Some {| Dag1.rows :=
            zip_with (fun d r =>
                        {| Dag1.date := d;
                           Dag1.max_temp_celsius := Dag1.max_temp_celsius r;
                           Dag1.min_temp_celsius := Dag1.min_temp_celsius r |})
                     dates (Dag1.rows df);
          Dag1.derived := Dag1.derived df |}.

(** [get_weather_data] from the response on: every exception is caught and
    answered with [None]. *)
Definition get_weather_data (resp : response) : option frame :=
  match resp with
  | Failed => None
  | Body None => None
  | Body (Some daily) =>
      df ← DataFrame daily; df' ← convert_dates df; Some (Complete df')
  | Timeless => None               (* [df['date']] raises [KeyError] *)
  | Partial time present =>
      if match present with
         | Some l => bool_decide (length l = length time)
         | None => true
         end
      then _ ← to_datetime time; Some (Lacking (length time))
      else None
  end.

(** The script body: analyze only when a frame came back.  The result is
    what the analyzer printed, if it was called.  On a frame that lacks a
    temperature column the analyzer passes its guard unless the frame has no
    row, and then stops at the first [df[...]] of the missing column. *)
Definition main (resp : response) : result (option Dag1F.output) :=
  match get_weather_data resp with
  | None => mret None
  | Some (Complete weather_df) =>
      od ← Dag1F.analyze_weather_data rnd series_sum (Some weather_df);
      mret (Some od.1)
  | Some (Lacking rows) =>
      match rows with
      | O => mret (Some Dag1F.NoData)
      | S _ => Raised KeyError
      end
  end.

End Fetch.

End Dag1Script.

(** ** Specification-side notions *)

(** [a] is the first position of the greatest value [m] of [L]. *)
Definition first_max (L : list Q) (a : nat) (m : Q) : Prop :=
  L !! a = Some m /\
  (forall z, z ∈ L -> z <= m) /\
  (forall j z, (j < a)%nat -> L !! j = Some z -> z < m).

(** [a] is the first position of the least value [m] of [L]. *)
Definition first_min (L : list Q) (a : nat) (m : Q) : Prop :=
  L !! a = Some m /\
  (forall z, z ∈ L -> m <= z) /\
  (forall j z, (j < a)%nat -> L !! j = Some z -> m < z).

(** The line printed for a sample in the first loop. *)
Definition triple (s : DailySample) : string * Q * Q :=
  (date s, max_temp s, min_temp s).

Definition found_of {A} (l : list A) : bool :=
  match l with [] => false | _ => true end.

(** The window's own arithmetic means. *)
Definition mean_max (w : list DailySample) : Q :=
  Qsum (map max_temp w) / Qlen w.
Definition mean_min (w : list DailySample) : Q :=
  Qsum (map min_temp w) / Qlen w.

(** The threshold rule in the specification's words: hot when
    [max_temp > base + delta], cold when [min_temp < base - delta], where the
    base is the window's mean ([RelativeToMean]) or the fixed normal
    ([RelativeToFixedNormal]). *)
Definition is_hot (base delta : Q) (s : DailySample) : bool :=
  Qlt_bool (base + delta) (max_temp s).
Definition is_cold (base delta : Q) (s : DailySample) : bool :=
  Qlt_bool (min_temp s) (base - delta).

(** The anomaly lines [dag_day_1.py] prints for one sample. *)
Definition mean_lines (avg_max avg_min delta : Q) (s : DailySample)
  : list anomaly :=
  (if is_hot avg_max delta s then [Hot (date s) (max_temp s)] else []) ++
  (if is_cold avg_min delta s then [Cold (date s) (min_temp s)] else []).

(** The anomaly lines [weather.py] prints for one sample. *)
Definition normal_lines (normal_max normal_min delta : Q) (s : DailySample)
  : list Weather.line :=
  (if is_hot normal_max delta s
   then [Weather.HotDay (date s) (max_temp s) (max_temp s - normal_max)]
   else []) ++
  (if is_cold normal_min delta s
   then [Weather.ColdDay (date s) (min_temp s) (normal_min - min_temp s)]
   else []).

(** The two columns [dag_1.py] derives, row by row. *)
Definition fluctuation (r : Dag1.row) : Q :=
  Dag1.max_temp_celsius r - Dag1.min_temp_celsius r.
Definition deviation (avg : Q) (r : Dag1.row) : Q :=
  Qabs (Dag1.max_temp_celsius r - avg).

(** The mean of the frame's [max_temp_celsius] column. *)
Definition frame_mean_max (df : Dag1.DataFrame) : Q :=
  Dag1.series_mean (map Dag1.max_temp_celsius (Dag1.rows df)).

(** A row is a significant deviation when its maximum is more than 2.0 away
    from the mean, on either side. *)
Definition significant (avg : Q) (r : Dag1.row) : bool :=
  Qlt_bool 2.0 (deviation avg r).

(** The line [dag_1.py] prints for a significant row. *)
Definition deviation_line (avg : Q) (r : Dag1.row)
  : string * Q * Q * Dag1.direction :=
  (Dag1.date r, Dag1.max_temp_celsius r, deviation avg r,
   if Qlt_bool avg (Dag1.max_temp_celsius r) then Dag1.above else Dag1.below).

(** The frame as a call of [dag_1.py]'s analyzer leaves it. *)
Definition frame_after (df : Dag1.DataFrame) : Dag1.DataFrame :=
  Dag1.set_column
    (Dag1.set_column df "temp_fluctuation" (map fluctuation (Dag1.rows df)))
    "deviation_from_avg"
    (map (deviation (frame_mean_max df)) (Dag1.rows df)).

(** [m] is the greatest (least) value of a list. *)
Definition is_maximum (m : Q) (l : list Q) : Prop :=
  m ∈ l /\ forall z, z ∈ l -> z <= m.
Definition is_minimum (m : Q) (l : list Q) : Prop :=
  m ∈ l /\ forall z, z ∈ l -> m <= z.



(** A window whose first two days tie on both extremes. *)
Definition tie_window : list DailySample :=
  [ {| date := "2024-01-01"; max_temp := 35; min_temp := 18 |};
    {| date := "2024-01-02"; max_temp := 35; min_temp := 18 |};
    {| date := "2024-01-03"; max_temp := 28; min_temp := 22 |} ].

(** A window with a day that is hot on its maximum and cold on its
    minimum. *)
Definition swing_window : list DailySample :=
  [ {| date := "2024-01-01"; max_temp := 10; min_temp := 10 |};
    {| date := "2024-01-02"; max_temp := 10; min_temp := 10 |};
    {| date := "2024-01-03"; max_temp := 40; min_temp := -20 |} ].

Definition swing_day : DailySample :=
  {| date := "2024-01-03"; max_temp := 40; min_temp := -20 |}.


(** A window with a day at 33 degrees. *)
Definition hyderabad_window : list DailySample :=
  [ {| date := "2024-08-24"; max_temp := 30; min_temp := 23 |};
    {| date := "2024-08-25"; max_temp := 33; min_temp := 24 |} ].

Definition hyderabad_hot_day : DailySample :=
  {| date := "2024-08-25"; max_temp := 33; min_temp := 24 |}.

(** The anomaly lines of [dag_day_1.py] for one sample, against the bounds
    the script computes. *)
Definition bound_lines (hot_bound cold_bound : Q) (s : DailySample)
  : list anomaly :=
  (if Qlt_bool hot_bound (max_temp s)
   then [Hot (date s) (max_temp s)] else []) ++
  (if Qlt_bool (min_temp s) cold_bound
   then [Cold (date s) (min_temp s)] else []).

(** The two columns [dag_1.py] derives, as floats. *)
Definition fl_fluctuation (rnd : Q -> Q) (r : Dag1.row) : Q :=
  rnd (Dag1.max_temp_celsius r - Dag1.min_temp_celsius r).
Definition fl_deviation (rnd : Q -> Q) (avg : Q) (r : Dag1.row) : Q :=
  Qabs (rnd (Dag1.max_temp_celsius r - avg)).

Definition fl_frame_mean_max (rnd : Q -> Q) (series_sum : list Q -> Q)
    (df : Dag1.DataFrame) : Q :=
  Dag1F.series_mean rnd series_sum (map Dag1.max_temp_celsius (Dag1.rows df)).

Definition fl_significant (rnd : Q -> Q) (avg : Q) (r : Dag1.row) : bool :=
  Qlt_bool 2.0 (fl_deviation rnd avg r).

Definition fl_deviation_line (rnd : Q -> Q) (avg : Q) (r : Dag1.row)
  : string * Q * Q * Dag1.direction :=
  (Dag1.date r, Dag1.max_temp_celsius r, fl_deviation rnd avg r,
   if Qlt_bool avg (Dag1.max_temp_celsius r) then Dag1.above else Dag1.below).

(** The frame as a call of [dag_1.py]'s analyzer leaves it, in floats. *)
Definition fl_frame_after (rnd : Q -> Q) (series_sum : list Q -> Q)
    (df : Dag1.DataFrame) : Dag1.DataFrame :=
  Dag1.set_column
    (Dag1.set_column df "temp_fluctuation"
       (map (fl_fluctuation rnd) (Dag1.rows df)))
    "deviation_from_avg"
    (map (fl_deviation rnd (fl_frame_mean_max rnd series_sum df)) (Dag1.rows df)).

(** The window's mean maximum as [dag_1.py] computes it. *)
Definition fl_series_mean_max (rnd : Q -> Q) (series_sum : list Q -> Q)
    (w : list DailySample) : Q :=
  rnd (series_sum (map max_temp w) / Qlen w).

(** Concrete windows. *)


(** Equal maxima; the second day's minimum is 10 below the mean minimum.
    Every value and every mean is a double. *)
Definition cold_only_window : list DailySample :=
  [ {| date := "2024-01-01"; max_temp := 30.5; min_temp := 20.5 |};
    {| date := "2024-01-02"; max_temp := 30.5; min_temp := 10.5 |};
    {| date := "2024-01-03"; max_temp := 30.5; min_temp := 30.5 |} ].

Definition cold_only_day : DailySample :=
  {| date := "2024-01-02"; max_temp := 30.5; min_temp := 10.5 |}.

(** Maxima 13.1, 15.1, 17.1 as parsed. *)
Definition two_apart_window : list DailySample :=
  [ parsed "2024-08-20" 13.1 5; parsed "2024-08-21" 15.1 5;
    parsed "2024-08-22" 17.1 5 ].

(** Three days at 30.1 as parsed. *)
Definition flat_window : list DailySample :=
  [ parsed "2024-08-20" 30.1 20; parsed "2024-08-21" 30.1 20;
    parsed "2024-08-22" 30.1 20 ].

(** Maxima 15.1, 25.1 and minima 7.1, 17.1 as parsed. *)
Definition edge_window : list DailySample :=
  [ parsed "2024-08-20" 15.1 7.1; parsed "2024-08-21" 25.1 17.1 ].

(** ** Facts about the Python primitives *)

Lemma Qlt_bool_iff x y : Qlt_bool x y = true <-> x < y.
Proof. unfold Qlt_bool, Qlt. apply Z.ltb_lt. Qed.

Lemma Qlt_bool_false x y : Qlt_bool x y = false <-> y <= x.
Proof. unfold Qlt_bool, Qle. apply Z.ltb_ge. Qed.

Lemma bind_Returned {A B} (a : A) (f : A -> result B) :
  (Returned a ≫= f) = f a.
Proof. reflexivity. Qed.

Lemma lookup_map {A B} (f : A -> B) (l : list A) (i : nat) :
  map f l !! i = f <$> (l !! i).
Proof.
  revert i. induction l as [|a l IH]; intros [|i]; simpl; auto.
Qed.

Lemma getitem_map {A B} (f : A -> B) (l : list A) i a :
  l !! i = Some a -> py_getitem (map f l) i = Returned (f a).
Proof. intros H. unfold py_getitem. now rewrite lookup_map, H. Qed.

Lemma argmax_from_spec (L : list Q) :
  forall l pre bi best,
    L = pre ++ l ->
    pre !! bi = Some best ->
    (forall z, z ∈ pre -> z <= best) ->
    (forall j z, (j < bi)%nat -> pre !! j = Some z -> z < best) ->
    first_max L (Dag1.argmax_from bi best (length pre) l) (max_from best l).
Proof.
  induction l as [|x r IH]; intros pre bi best HL Hbi Hle Hlt; simpl.
  - rewrite app_nil_r in HL. subst L. repeat split; auto.
  - assert (Hpre : L = (pre ++ [x]) ++ r) by (now rewrite <- app_assoc).
    assert (Hlen : length (pre ++ [x]) = S (length pre))
      by (rewrite length_app; simpl; lia).
    destruct (Qlt_bool best x) eqn:E.
    + apply Qlt_bool_iff in E. rewrite <- Hlen.
      apply IH; auto.
      * rewrite lookup_app_r by lia. now rewrite Nat.sub_diag.
      * intros z Hz. apply elem_of_app in Hz as [Hz|Hz].
        -- apply Hle in Hz. lra.
        -- apply list_elem_of_singleton in Hz. subst z. lra.
      * intros j z Hj Hz. rewrite lookup_app_l in Hz by lia.
        assert (z <= best) by (apply Hle; eapply list_elem_of_lookup_2; eauto).
        lra.
    + apply Qlt_bool_false in E. rewrite <- Hlen.
      pose proof (lookup_lt_Some _ _ _ Hbi) as Hb.
      apply IH; auto.
      * now rewrite lookup_app_l by lia.
      * intros z Hz. apply elem_of_app in Hz as [Hz|Hz]; auto.
        apply list_elem_of_singleton in Hz. now subst z.
      * intros j z Hj Hz. rewrite lookup_app_l in Hz by lia. eauto.
Qed.

Lemma argmin_from_spec (L : list Q) :
  forall l pre bi best,
    L = pre ++ l ->
    pre !! bi = Some best ->
    (forall z, z ∈ pre -> best <= z) ->
    (forall j z, (j < bi)%nat -> pre !! j = Some z -> best < z) ->
    first_min L (Dag1.argmin_from bi best (length pre) l) (min_from best l).
Proof.
  induction l as [|x r IH]; intros pre bi best HL Hbi Hle Hlt; simpl.
  - rewrite app_nil_r in HL. subst L. repeat split; auto.
  - assert (Hpre : L = (pre ++ [x]) ++ r) by (now rewrite <- app_assoc).
    assert (Hlen : length (pre ++ [x]) = S (length pre))
      by (rewrite length_app; simpl; lia).
    destruct (Qlt_bool x best) eqn:E.
    + apply Qlt_bool_iff in E. rewrite <- Hlen.
      apply IH; auto.
      * rewrite lookup_app_r by lia. now rewrite Nat.sub_diag.
      * intros z Hz. apply elem_of_app in Hz as [Hz|Hz].
        -- apply Hle in Hz. lra.
        -- apply list_elem_of_singleton in Hz. subst z. lra.
      * intros j z Hj Hz. rewrite lookup_app_l in Hz by lia.
        assert (best <= z) by (apply Hle; eapply list_elem_of_lookup_2; eauto).
        lra.
    + apply Qlt_bool_false in E. rewrite <- Hlen.
      pose proof (lookup_lt_Some _ _ _ Hbi) as Hb.
      apply IH; auto.
      * now rewrite lookup_app_l by lia.
      * intros z Hz. apply elem_of_app in Hz as [Hz|Hz]; auto.
        apply list_elem_of_singleton in Hz. now subst z.
      * intros j z Hj Hz. rewrite lookup_app_l in Hz by lia. eauto.
Qed.

(** [max] and [idxmax] agree: the value [max] returns sits at the position
    [idxmax] returns, which is the first position of the greatest value. *)
Lemma idxmax_first_max x r :
  first_max (x :: r) (Dag1.argmax_from 0 x 1 r) (max_from x r).
Proof.
  apply (argmax_from_spec (x :: r) r [x] 0%nat x); auto.
  - intros z Hz. apply list_elem_of_singleton in Hz. subst z. lra.
  - intros j z Hj. lia.
Qed.

Lemma idxmin_first_min x r :
  first_min (x :: r) (Dag1.argmin_from 0 x 1 r) (min_from x r).
Proof.
  apply (argmin_from_spec (x :: r) r [x] 0%nat x); auto.
  - intros z Hz. apply list_elem_of_singleton in Hz. subst z. lra.
  - intros j z Hj. lia.
Qed.

Lemma index_from_first (m : Q) :
  forall L a k,
    L !! a = Some m ->
    (forall j z, (j < a)%nat -> L !! j = Some z -> ~ z == m) ->
    index_from k m L = Returned (k + a)%nat.
Proof.
  induction L as [|y L IH]; intros a k Ha Hbefore; [easy|].
  destruct a as [|a]; simpl in *.
  - injection Ha as ->. rewrite (proj2 (Qeq_bool_iff m m)) by reflexivity.
    now rewrite Nat.add_0_r.
  - destruct (Qeq_bool y m) eqn:E.
    + apply Qeq_bool_iff in E. exfalso.
      apply (Hbefore 0%nat y); [lia|reflexivity|exact E].
    + rewrite (IH a (S k)); [f_equal; lia|exact Ha|].
      intros j z Hj Hz. apply (Hbefore (S j) z); [lia|exact Hz].
Qed.

Lemma py_index_first_max L a m : first_max L a m -> py_index m L = Returned a.
Proof.
  intros (Ha & _ & Hlt). unfold py_index.
  rewrite (index_from_first m L a 0); auto.
  intros j z Hj Hz Heq. specialize (Hlt j z Hj Hz). lra.
Qed.

Lemma py_index_first_min L a m : first_min L a m -> py_index m L = Returned a.
Proof.
  intros (Ha & _ & Hlt). unfold py_index.
  rewrite (index_from_first m L a 0); auto.
  intros j z Hj Hz Heq. specialize (Hlt j z Hj Hz). lra.
Qed.

(** ** Loops over a window *)

Lemma for_range_suffix {A St} (w : list A) (body : nat -> St -> result St)
    (step : St -> A -> St) :
  (forall i a s, w !! i = Some a -> body i s = Returned (step s a)) ->
  forall suf pre s,
    w = pre ++ suf ->
    for_range body (seq (length pre) (length suf)) s
    = Returned (foldl step s suf).
Proof.
  intros Hbody. induction suf as [|a suf IH]; intros pre s Hw; [easy|].
  simpl. rewrite (Hbody (length pre) a s).
  - rewrite bind_Returned.
    replace (S (length pre)) with (length (pre ++ [a]))
      by (rewrite length_app; simpl; lia).
    apply IH. now rewrite <- app_assoc.
  - subst w. rewrite lookup_app_r by lia. now rewrite Nat.sub_diag.
Qed.

Lemma for_range_window {A St} (w : list A) (body : nat -> St -> result St)
    (step : St -> A -> St) (s : St) :
  (forall i a s, w !! i = Some a -> body i s = Returned (step s a)) ->
  for_range body (range (length w)) s = Returned (foldl step s w).
Proof.
  intros Hbody. apply (for_range_suffix w body step Hbody w [] s eq_refl).
Qed.

Lemma foldl_snoc_map {A B} (f : A -> B) (w : list A) (acc : list B) :
  foldl (fun out a => out ++ [f a]) acc w = acc ++ map f w.
Proof.
  revert acc. induction w as [|a w IH]; intros acc; simpl.
  - now rewrite app_nil_r.
  - rewrite IH. now rewrite <- app_assoc.
Qed.

Lemma foldl_lines {A B} (f : A -> list B) (w : list A) (st : bool * list B) :
  foldl (fun st a => (st.1 || found_of (f a), st.2 ++ f a)) st w
  = (st.1 || found_of (flat_map f w), st.2 ++ flat_map f w).
Proof.
  revert st. induction w as [|a w IH]; intros [b acc]; simpl.
  - now rewrite orb_false_r, app_nil_r.
  - rewrite IH. simpl. f_equal.
    + rewrite <- orb_assoc. f_equal. now destruct (f a).
    + now rewrite app_assoc.
Qed.

Lemma print_records_window (w : list DailySample) :
  for_range (DagDay1.print_record (map date w) (map max_temp w) (map min_temp w))
            (range (length (map date w))) []
  = Returned (map triple w).
Proof.
  rewrite length_map.
  rewrite (for_range_window w _ (fun out s => out ++ [triple s])).
  - now rewrite foldl_snoc_map.
  - intros i s out Hi. unfold DagDay1.print_record.
    now rewrite !(getitem_map _ _ _ _ Hi).
Qed.

Lemma mean_spot_window (delta avg_max avg_min : Q) (w : list DailySample) :
  for_range (DagDay1.spot delta (map date w) (map max_temp w) (map min_temp w)
                          avg_max avg_min)
            (range (length (map date w))) (false, [])
  = Returned (found_of (flat_map (mean_lines avg_max avg_min delta) w),
              flat_map (mean_lines avg_max avg_min delta) w).
Proof.
  rewrite length_map.
  rewrite (for_range_window w _
             (fun st s => (st.1 || found_of (mean_lines avg_max avg_min delta s),
                           st.2 ++ mean_lines avg_max avg_min delta s))).
  - now rewrite foldl_lines.
  - intros i s [b acc] Hi. unfold DagDay1.spot, mean_lines, is_hot, is_cold.
    rewrite !(getitem_map _ _ _ _ Hi). simpl.
    destruct (Qlt_bool (avg_max + delta) (max_temp s));
      destruct (Qlt_bool (min_temp s) (avg_min - delta)); simpl;
      rewrite ?(getitem_map _ _ _ _ Hi); simpl;
      rewrite ?orb_true_r, ?orb_false_r, ?app_nil_r, <- ?app_assoc; reflexivity.
Qed.

Lemma normal_spot_window (normal_max normal_min delta : Q)
    (w : list DailySample) :
  for_range (Weather.spot normal_max normal_min delta
                          (map date w) (map max_temp w) (map min_temp w))
            (range (length (map date w))) (false, [])
  = Returned (found_of (flat_map (normal_lines normal_max normal_min delta) w),
              flat_map (normal_lines normal_max normal_min delta) w).
Proof.
  rewrite length_map.
  rewrite (for_range_window w _
             (fun st s =>
                (st.1 || found_of (normal_lines normal_max normal_min delta s),
                 st.2 ++ normal_lines normal_max normal_min delta s))).
  - now rewrite foldl_lines.
  - intros i s [b acc] Hi. unfold Weather.spot, normal_lines, is_hot, is_cold.
    rewrite !(getitem_map _ _ _ _ Hi). simpl.
    destruct (Qlt_bool (normal_max + delta) (max_temp s));
      destruct (Qlt_bool (min_temp s) (normal_min - delta)); simpl;
      rewrite ?(getitem_map _ _ _ _ Hi); simpl;
      rewrite ?orb_true_r, ?orb_false_r, ?app_nil_r, <- ?app_assoc; reflexivity.
Qed.

(** ** What the list-based analyzers compute on a window *)

Lemma window_extremes (w : list DailySample) :
  w <> [] ->
  exists ih il sh sl,
    w !! ih = Some sh /\ w !! il = Some sl /\
    first_max (map max_temp w) ih (max_temp sh) /\
    first_min (map min_temp w) il (min_temp sl) /\
    py_max (map max_temp w) = Returned (max_temp sh) /\
    py_min (map min_temp w) = Returned (min_temp sl).
Proof.
  intros Hw. destruct w as [|s0 w0]; [congruence|].
  pose proof (idxmax_first_max (max_temp s0) (map max_temp w0)) as Hmax.
  pose proof (idxmin_first_min (min_temp s0) (map min_temp w0)) as Hmin.
  change (max_temp s0 :: map max_temp w0) with (map max_temp (s0 :: w0)) in Hmax.
  change (min_temp s0 :: map min_temp w0) with (map min_temp (s0 :: w0)) in Hmin.
  set (w := s0 :: w0) in *.
  destruct Hmax as (Ha & Hmax), Hmin as (Hb & Hmin).
  pose proof Ha as Ha'. pose proof Hb as Hb'.
  rewrite lookup_map in Ha'. rewrite lookup_map in Hb'.
  apply fmap_Some in Ha' as (sh & Hsh & Eh).
  apply fmap_Some in Hb' as (sl & Hsl & El).
  exists (Dag1.argmax_from 0 (max_temp s0) 1 (map max_temp w0)),
         (Dag1.argmin_from 0 (min_temp s0) 1 (map min_temp w0)), sh, sl.
  rewrite <- Eh, <- El. repeat split; auto; apply Hmax || apply Hmin.
Qed.

Lemma statistics_mean_window {A} (f : A -> Q) (w : list A) :
  w <> [] -> statistics_mean (map f w) = Returned (Qsum (map f w) / Qlen w).
Proof.
  intros Hw. destruct w as [|a w]; [congruence|].
  unfold statistics_mean, Qlen. now rewrite length_map.
Qed.

Lemma DagDay1_run (delta : Q) (w : list DailySample) :
  w <> [] ->
  exists ih il sh sl,
    w !! ih = Some sh /\ w !! il = Some sl /\
    first_max (map max_temp w) ih (max_temp sh) /\
    first_min (map min_temp w) il (min_temp sl) /\
    DagDay1.analyze_weather_data delta (of_window w)
    = Returned (DagDay1.Report
        {| DagDay1.records := map triple w;
           DagDay1.highest_temp := max_temp sh;
           DagDay1.date_of_highest := date sh;
           DagDay1.lowest_temp := min_temp sl;
           DagDay1.date_of_lowest := date sl;
           DagDay1.avg_max_temp := mean_max w;
           DagDay1.avg_min_temp := mean_min w;
           DagDay1.anomalies :=
             flat_map (mean_lines (mean_max w) (mean_min w) delta) w;
           DagDay1.anomalies_found :=
             found_of (flat_map (mean_lines (mean_max w) (mean_min w) delta) w)
        |}).
Proof.
  intros Hw.
  destruct (window_extremes w Hw) as (ih & il & sh & sl & Hh & Hl & Hmax & Hmin & Pmax & Pmin).
  exists ih, il, sh, sl. repeat split; try apply Hmax; try apply Hmin; auto.
  unfold DagDay1.analyze_weather_data, of_window.
  cbn [time temperature_2m_max temperature_2m_min].
  rewrite print_records_window, bind_Returned.
  rewrite Pmax, bind_Returned, Pmin, bind_Returned.
  rewrite (py_index_first_max _ _ _ Hmax), bind_Returned.
  rewrite (getitem_map _ _ _ _ Hh), bind_Returned.
  rewrite (py_index_first_min _ _ _ Hmin), bind_Returned.
  rewrite (getitem_map _ _ _ _ Hl), bind_Returned.
  rewrite !(statistics_mean_window _ w Hw), !bind_Returned.
  fold (mean_max w) (mean_min w).
  rewrite mean_spot_window, bind_Returned. reflexivity.
Qed.

Lemma Weather_run (normal_max normal_min delta : Q) (w : list DailySample) :
  w <> [] ->
  exists ih il sh sl,
    w !! ih = Some sh /\ w !! il = Some sl /\
    first_max (map max_temp w) ih (max_temp sh) /\
    first_min (map min_temp w) il (min_temp sl) /\
    Weather.analyze_weather_data normal_max normal_min delta (of_window w)
    = Returned (Weather.Report
        {| Weather.records := map triple w;
           Weather.highest_temp := max_temp sh;
           Weather.date_of_highest := date sh;
           Weather.lowest_temp := min_temp sl;
           Weather.date_of_lowest := date sl;
           Weather.anomalies :=
             flat_map (normal_lines normal_max normal_min delta) w;
           Weather.anomalies_found :=
             found_of (flat_map (normal_lines normal_max normal_min delta) w)
        |}).
Proof.
  intros Hw.
  destruct (window_extremes w Hw) as (ih & il & sh & sl & Hh & Hl & Hmax & Hmin & Pmax & Pmin).
  exists ih, il, sh, sl. repeat split; try apply Hmax; try apply Hmin; auto.
  unfold Weather.analyze_weather_data, of_window.
  cbn [time temperature_2m_max temperature_2m_min].
  change (Weather.print_record) with (DagDay1.print_record).
  rewrite print_records_window, bind_Returned.
  rewrite Pmax, bind_Returned, Pmin, bind_Returned.
  rewrite (py_index_first_max _ _ _ Hmax), bind_Returned.
  rewrite (getitem_map _ _ _ _ Hh), bind_Returned.
  rewrite (py_index_first_min _ _ _ Hmin), bind_Returned.
  rewrite (getitem_map _ _ _ _ Hl), bind_Returned.
  rewrite normal_spot_window, bind_Returned. reflexivity.
Qed.

(** ** What the pandas analyzer computes on a frame *)

Lemma idxmax_column {A} (f : A -> Q) (l : list A) :
  l <> [] ->
  exists i a, l !! i = Some a /\ first_max (map f l) i (f a) /\
              Dag1.idxmax (map f l) = Returned i.
Proof.
  intros Hl. destruct l as [|a0 l0]; [congruence|].
  pose proof (idxmax_first_max (f a0) (map f l0)) as Hmax.
  change (f a0 :: map f l0) with (map f (a0 :: l0)) in Hmax.
  pose proof Hmax as (Ha & _). rewrite lookup_map in Ha.
  apply fmap_Some in Ha as (a & Ha & E).
  exists (Dag1.argmax_from 0 (f a0) 1 (map f l0)), a.
  rewrite <- E. auto.
Qed.

Lemma idxmin_column {A} (f : A -> Q) (l : list A) :
  l <> [] ->
  exists i a, l !! i = Some a /\ first_min (map f l) i (f a) /\
              Dag1.idxmin (map f l) = Returned i.
Proof.
  intros Hl. destruct l as [|a0 l0]; [congruence|].
  pose proof (idxmin_first_min (f a0) (map f l0)) as Hmin.
  change (f a0 :: map f l0) with (map f (a0 :: l0)) in Hmin.
  pose proof Hmin as (Ha & _). rewrite lookup_map in Ha.
  apply fmap_Some in Ha as (a & Ha & E).
  exists (Dag1.argmin_from 0 (f a0) 1 (map f l0)), a.
  rewrite <- E. auto.
Qed.

Lemma filter_zip_map {A B} (g : A -> B) (p : B -> bool) (l : list A) :
  List.filter (fun rd : A * B => p rd.2) (zip l (map g l))
  = map (fun a => (a, g a)) (List.filter (fun a => p (g a)) l).
Proof.
  induction l as [|a l IH]; simpl; [reflexivity|].
  destruct (p (g a)); simpl; now rewrite IH.
Qed.

Lemma Dag1_run (df : Dag1.DataFrame) :
  Dag1.rows df <> [] ->
  exists ih il ia rh rl ra,
    Dag1.rows df !! ih = Some rh /\
    Dag1.rows df !! il = Some rl /\
    Dag1.rows df !! ia = Some ra /\
    first_max (map Dag1.max_temp_celsius (Dag1.rows df)) ih
              (Dag1.max_temp_celsius rh) /\
    first_min (map Dag1.min_temp_celsius (Dag1.rows df)) il
              (Dag1.min_temp_celsius rl) /\
    first_max (map fluctuation (Dag1.rows df)) ia (fluctuation ra) /\
    Dag1.analyze_frame df
    = Returned
        ({| Dag1.highest_temp := Dag1.max_temp_celsius rh;
            Dag1.date_of_highest_temp := Dag1.date rh;
            Dag1.lowest_temp := Dag1.min_temp_celsius rl;
            Dag1.date_of_lowest_temp := Dag1.date rl;
            Dag1.max_fluctuation := fluctuation ra;
            Dag1.date_of_anomaly := Dag1.date ra;
            Dag1.avg_max_temp := frame_mean_max df;
            Dag1.significant_deviations :=
              map (deviation_line (frame_mean_max df))
                  (List.filter (significant (frame_mean_max df)) (Dag1.rows df))
         |}, frame_after df).
Proof.
  intros Hr.
  destruct (idxmax_column Dag1.max_temp_celsius _ Hr) as (ih & rh & Hh & Mh & Ih).
  destruct (idxmin_column Dag1.min_temp_celsius _ Hr) as (il & rl & Hl & Ml & Il).
  destruct (idxmax_column fluctuation _ Hr) as (ia & ra & Ha & Ma & Ia).
  exists ih, il, ia, rh, rl, ra. repeat split; try apply Mh; try apply Ml;
    try apply Ma; auto.
  unfold Dag1.analyze_frame. cbv zeta.
  unfold Dag1.cell, Dag1.get_column, Dag1.loc, Dag1.set_column.
  cbn [Dag1.rows Dag1.derived].
  rewrite Ih, bind_Returned, Hh, bind_Returned.
  rewrite Il, bind_Returned, Hl, bind_Returned.
  rewrite !lookup_insert_eq. cbv beta iota. rewrite bind_Returned.
  change (fun r : Dag1.row => Dag1.max_temp_celsius r - Dag1.min_temp_celsius r)
    with fluctuation.
  rewrite Ia, bind_Returned, Ha, !bind_Returned.
  rewrite lookup_map, Ha. cbn [fmap option_fmap option_map].
  rewrite !bind_Returned.
  fold (frame_mean_max df).
  change (fun r : Dag1.row => Qabs (Dag1.max_temp_celsius r - frame_mean_max df))
    with (deviation (frame_mean_max df)).
  rewrite (filter_zip_map (deviation (frame_mean_max df)) (Qlt_bool 2.0)).
  rewrite map_map. reflexivity.
Qed.

(** ** Arithmetic of means *)

Lemma Qlen_cons {A} (a : A) (l : list A) : Qlen (a :: l) == Qlen l + 1.
Proof.
  unfold Qlen. cbn [length]. rewrite Nat2Z.inj_succ, <- Z.add_1_r.
  now rewrite inject_Z_plus.
Qed.

Lemma Qlen_nonneg {A} (l : list A) : 0 <= Qlen l.
Proof.
  unfold Qlen. change 0 with (inject_Z 0). rewrite <- Zle_Qle. lia.
Qed.

Lemma Qlen_pos {A} (l : list A) : l <> [] -> 0 < Qlen l.
Proof.
  destruct l as [|a l]; [congruence|]. intros _.
  rewrite Qlen_cons. pose proof (Qlen_nonneg l). lra.
Qed.

Lemma Qsum_le_max (l : list Q) (m : Q) :
  (forall z, z ∈ l -> z <= m) -> Qsum l <= Qlen l * m.
Proof.
  induction l as [|x l IH]; intros H.
  - change (0 <= 0 * m). lra.
  - rewrite Qlen_cons. change (Qsum (x :: l)) with (x + Qsum l).
    assert (x <= m) by (apply H; left).
    assert (Qsum l <= Qlen l * m) by (apply IH; intros z Hz; apply H; now right).
    lra.
Qed.

Lemma Qsum_ge_min (l : list Q) (m : Q) :
  (forall z, z ∈ l -> m <= z) -> Qlen l * m <= Qsum l.
Proof.
  induction l as [|x l IH]; intros H.
  - change (0 * m <= 0). lra.
  - rewrite Qlen_cons. change (Qsum (x :: l)) with (x + Qsum l).
    assert (m <= x) by (apply H; left).
    assert (Qlen l * m <= Qsum l) by (apply IH; intros z Hz; apply H; now right).
    lra.
Qed.

Lemma mean_le_max {A} (f : A -> Q) (w : list A) (m : Q) :
  w <> [] -> (forall z, z ∈ map f w -> z <= m) -> Qsum (map f w) / Qlen w <= m.
Proof.
  intros Hw H. apply Qle_shift_div_r; [now apply Qlen_pos|].
  pose proof (Qsum_le_max _ _ H) as Hs.
  unfold Qlen in *. rewrite length_map in Hs. lra.
Qed.

Lemma mean_ge_min {A} (f : A -> Q) (w : list A) (m : Q) :
  w <> [] -> (forall z, z ∈ map f w -> m <= z) -> m <= Qsum (map f w) / Qlen w.
Proof.
  intros Hw H. apply Qle_shift_div_l; [now apply Qlen_pos|].
  pose proof (Qsum_ge_min _ _ H) as Hs.
  unfold Qlen in *. rewrite length_map in Hs. lra.
Qed.

(** ** First positions and chronological order *)

Lemma first_max_is_maximum L a m : first_max L a m -> is_maximum m L.
Proof.
  intros (Ha & Hle & _). split; [|exact Hle].
  eapply list_elem_of_lookup_2; eauto.
Qed.

Lemma first_min_is_minimum L a m : first_min L a m -> is_minimum m L.
Proof.
  intros (Ha & Hle & _). split; [|exact Hle].
  eapply list_elem_of_lookup_2; eauto.
Qed.




(** ** The pandas analyzer on the frame of a window *)

Lemma map_to_row_max (w : list DailySample) :
  map Dag1.max_temp_celsius (map to_row w) = map max_temp w.
Proof. rewrite map_map. now apply map_ext. Qed.

Lemma map_to_row_min (w : list DailySample) :
  map Dag1.min_temp_celsius (map to_row w) = map min_temp w.
Proof. rewrite map_map. now apply map_ext. Qed.

Lemma frame_mean_max_window (w : list DailySample) :
  frame_mean_max (frame_of_window w) = mean_max w.
Proof.
  unfold frame_mean_max, Dag1.series_mean, frame_of_window, mean_max, Qlen.
  cbn [Dag1.rows]. now rewrite map_to_row_max, !length_map.
Qed.

Lemma Dag1_guard_nonempty (df : Dag1.DataFrame) :
  Dag1.rows df <> [] ->
  Dag1.analyze_weather_data (Some df)
  = (rd ← Dag1.analyze_frame df; mret (Dag1.Analysis rd.1, Some rd.2)).
Proof.
  intros Hr. unfold Dag1.analyze_weather_data, Dag1.empty.
  destruct (Dag1.rows df); [congruence|reflexivity].
Qed.

Lemma Dag1_analyze_nonempty (df : Dag1.DataFrame) :
  Dag1.rows df <> [] ->
  exists r, Dag1.analyze_frame df = Returned (r, frame_after df) /\
            Dag1.analyze_weather_data (Some df)
            = Returned (Dag1.Analysis r, Some (frame_after df)).
Proof.
  intros Hr.
  destruct (Dag1_run df Hr) as (ih & il & ia & rh & rl & ra & _ & _ & _ & _ & _ & _ & E).
  eexists. split; [exact E|].
  rewrite (Dag1_guard_nonempty _ Hr), E. reflexivity.
Qed.

Lemma Dag1_run_window (w : list DailySample) :
  w <> [] ->
  exists ih il sh sl r,
    w !! ih = Some sh /\ w !! il = Some sl /\
    first_max (map max_temp w) ih (max_temp sh) /\
    first_min (map min_temp w) il (min_temp sl) /\
    Dag1.analyze_weather_data (Some (frame_of_window w))
    = Returned (Dag1.Analysis r, Some (frame_after (frame_of_window w))) /\
    Dag1.highest_temp r = max_temp sh /\
    Dag1.date_of_highest_temp r = date sh /\
    Dag1.lowest_temp r = min_temp sl /\
    Dag1.date_of_lowest_temp r = date sl /\
    Dag1.avg_max_temp r = mean_max w /\
    Dag1.significant_deviations r
    = map (deviation_line (mean_max w))
          (List.filter (significant (mean_max w)) (map to_row w)).
Proof.
  intros Hw.
  assert (Hr : Dag1.rows (frame_of_window w) <> [])
    by (destruct w; [congruence|discriminate]).
  destruct (Dag1_run _ Hr)
    as (ih & il & ia & rh & rl & ra & Hh & Hl & _ & Mh & Ml & _ & E).
  cbn [frame_of_window Dag1.rows] in Hh, Hl, Mh, Ml.
  rewrite lookup_map in Hh, Hl.
  apply fmap_Some in Hh as (sh & Hh & ->).
  apply fmap_Some in Hl as (sl & Hl & ->).
  rewrite map_to_row_max in Mh. rewrite map_to_row_min in Ml.
  eexists ih, il, sh, sl, _.
  split; [exact Hh|]. split; [exact Hl|].
  split; [exact Mh|]. split; [exact Ml|].
  split.
  - rewrite (Dag1_guard_nonempty _ Hr), E. reflexivity.
  - cbn [Dag1.highest_temp Dag1.date_of_highest_temp Dag1.lowest_temp
         Dag1.date_of_lowest_temp Dag1.avg_max_temp
         Dag1.significant_deviations fst].
    rewrite frame_mean_max_window. repeat split; reflexivity.
Qed.

(** * The claims *)

(** C1: on every non-empty window each of the three analyzers reports, as
    highest temperature, the greatest [max_temp] of the window and, as lowest
    temperature, the least [min_temp] of the window. *)
Theorem C1_extremes (w : list DailySample) :
  w <> [] ->
  (forall delta, exists r,
      DagDay1.analyze_weather_data delta (of_window w)
      = Returned (DagDay1.Report r) /\
      is_maximum (DagDay1.highest_temp r) (map max_temp w) /\
      is_minimum (DagDay1.lowest_temp r) (map min_temp w)) /\
  (forall normal_max normal_min delta, exists r,
      Weather.analyze_weather_data normal_max normal_min delta (of_window w)
      = Returned (Weather.Report r) /\
      is_maximum (Weather.highest_temp r) (map max_temp w) /\
      is_minimum (Weather.lowest_temp r) (map min_temp w)) /\
  (exists r df',
      Dag1.analyze_weather_data (Some (frame_of_window w))
      = Returned (Dag1.Analysis r, df') /\
      is_maximum (Dag1.highest_temp r) (map max_temp w) /\
      is_minimum (Dag1.lowest_temp r) (map min_temp w)).
Proof.
  intros Hw. split; [|split].
  - intros delta.
    destruct (DagDay1_run delta w Hw) as (ih & il & sh & sl & _ & _ & Mh & Ml & E).
    eexists. split; [exact E|]. cbn [DagDay1.highest_temp DagDay1.lowest_temp].
    split; [eapply first_max_is_maximum|eapply first_min_is_minimum]; eauto.
  - intros normal_max normal_min delta.
    destruct (Weather_run normal_max normal_min delta w Hw)
      as (ih & il & sh & sl & _ & _ & Mh & Ml & E).
    eexists. split; [exact E|]. cbn [Weather.highest_temp Weather.lowest_temp].
    split; [eapply first_max_is_maximum|eapply first_min_is_minimum]; eauto.
  - destruct (Dag1_run_window w Hw)
      as (ih & il & sh & sl & r & _ & _ & Mh & Ml & E & Eh & _ & El & _).
    exists r, (Some (frame_after (frame_of_window w))).
    split; [exact E|]. rewrite Eh, El.
    split; [eapply first_max_is_maximum|eapply first_min_is_minimum]; eauto.
Qed.

Lemma C1_extremes_witness :
  DagDay1.example_window <> [] /\
  exists r,
    DagDay1.analyze_weather_data 5 (of_window DagDay1.example_window)
    = Returned (DagDay1.Report r) /\
    is_maximum (DagDay1.highest_temp r) (map max_temp DagDay1.example_window).
Proof.
  split; [discriminate|].
  destruct (C1_extremes DagDay1.example_window ltac:(discriminate)) as (H & _).
  destruct (H 5) as (r & E & M & _). exists r. split; assumption.
Defined.






(** On the tie window the first day is the one reported, for both
    extremes. *)
Example tie_window_first_day :
  exists r,
    DagDay1.analyze_weather_data 5 (of_window tie_window)
    = Returned (DagDay1.Report r) /\
    DagDay1.date_of_highest r = "2024-01-01"%string /\
    DagDay1.date_of_lowest r = "2024-01-01"%string.
Proof. eexists. split; [vm_compute; reflexivity|]. split; reflexivity. Qed.

(** C8: on the three-day example window with the threshold set to 2.0,
    [dag_day_1.py] reports day 2 as highest (35) and as lowest (18), the
    means 31 and 20, day 2 as the only hot anomaly and no cold anomaly. *)
Theorem C8_example :
  exists r,
    DagDay1.analyze_weather_data 2.0 (of_window DagDay1.example_window)
    = Returned (DagDay1.Report r) /\
    DagDay1.highest_temp r == 35 /\
    DagDay1.date_of_highest r = "2024-01-02"%string /\
    DagDay1.lowest_temp r == 18 /\
    DagDay1.date_of_lowest r = "2024-01-02"%string /\
    DagDay1.avg_max_temp r == 31.0 /\
    DagDay1.avg_min_temp r == 20.0 /\
    DagDay1.hot_anomalies r = [("2024-01-02"%string, 35)] /\
    DagDay1.cold_anomalies r = [].
Proof.
  eexists. split; [vm_compute; reflexivity|].
  cbn [DagDay1.highest_temp DagDay1.date_of_highest DagDay1.lowest_temp
       DagDay1.date_of_lowest DagDay1.avg_max_temp DagDay1.avg_min_temp].
  repeat split; try reflexivity.
Qed.

(** With the constant as the script ships it (5.0) the same window has no
    anomaly at all. *)
Example example_window_shipped_threshold :
  exists r,
    DagDay1.analyze_weather_data DagDay1.ANOMALY_THRESHOLD_DEGREES
      (of_window DagDay1.example_window)
    = Returned (DagDay1.Report r) /\
    DagDay1.anomalies r = [] /\ DagDay1.anomalies_found r = false.
Proof. eexists. split; [vm_compute; reflexivity|]. split; reflexivity. Qed.

(** ** The anomaly lists as sub-sequences of the window *)



Lemma hot_of_normal_lines (normal_max normal_min delta : Q)
    (w : list DailySample) r :
  Weather.anomalies r = flat_map (normal_lines normal_max normal_min delta) w ->
  Weather.hot_anomalies r
  = map (fun s => (date s, max_temp s)) (List.filter (is_hot normal_max delta) w).
Proof.
  unfold Weather.hot_anomalies. intros ->.
  induction w as [|s w IH]; [reflexivity|].
  cbn [flat_map List.filter]. rewrite flat_map_app, IH. unfold normal_lines.
  destruct (is_hot normal_max delta s), (is_cold normal_min delta s); reflexivity.
Qed.

Lemma cold_of_normal_lines (normal_max normal_min delta : Q)
    (w : list DailySample) r :
  Weather.anomalies r = flat_map (normal_lines normal_max normal_min delta) w ->
  Weather.cold_anomalies r
  = map (fun s => (date s, min_temp s)) (List.filter (is_cold normal_min delta) w).
Proof.
  unfold Weather.cold_anomalies. intros ->.
  induction w as [|s w IH]; [reflexivity|].
  cbn [flat_map List.filter]. rewrite flat_map_app, IH. unfold normal_lines.
  destruct (is_hot normal_max delta s), (is_cold normal_min delta s); reflexivity.
Qed.

Lemma elem_of_map_filter {A B} (f : A -> B) (p : A -> bool) (w : list A) x :
  x ∈ map f (List.filter p w) <-> exists s, s ∈ w /\ p s = true /\ f s = x.
Proof.
  rewrite list_elem_of_In, in_map_iff. split.
  - intros (s & E & Hs). apply filter_In in Hs as (Hs & Hp).
    exists s. rewrite list_elem_of_In. auto.
  - intros (s & Hs & Hp & E). exists s. split; [exact E|].
    apply filter_In. rewrite <- list_elem_of_In. auto.
Qed.

Lemma hot_listed_iff (base delta : Q) (w : list DailySample) s :
  s ∈ w ->
  (date s, max_temp s)
    ∈ map (fun s => (date s, max_temp s)) (List.filter (is_hot base delta) w)
  <-> base + delta < max_temp s.
Proof.
  intros Hs. rewrite elem_of_map_filter, <- Qlt_bool_iff. split.
  - intros (s' & _ & Hp & E). injection E as _ E.
    unfold is_hot in Hp. now rewrite E in Hp.
  - intros Hp. exists s. auto.
Qed.

Lemma cold_listed_iff (base delta : Q) (w : list DailySample) s :
  s ∈ w ->
  (date s, min_temp s)
    ∈ map (fun s => (date s, min_temp s)) (List.filter (is_cold base delta) w)
  <-> min_temp s < base - delta.
Proof.
  intros Hs. rewrite elem_of_map_filter, <- Qlt_bool_iff. split.
  - intros (s' & _ & Hp & E). injection E as _ E.
    unfold is_cold in Hp. now rewrite E in Hp.
  - intros Hp. exists s. auto.
Qed.

(** C3: [weather.py] compares against fixed normals.  On every non-empty
    window and for all [normal_max], [normal_min], [delta], the hot anomalies
    are exactly the samples with [max_temp > normal_max + delta] and the cold
    anomalies exactly those with [min_temp < normal_min - delta]; with the
    shipped constants (29.5, 22.5, 2.5) the hot bound is 32.0 and every day
    at 33 is flagged hot. *)
Theorem C3_relative_to_fixed_normal :
  (forall (normal_max normal_min delta : Q) (w : list DailySample),
      w <> [] ->
      exists r,
        Weather.analyze_weather_data normal_max normal_min delta (of_window w)
        = Returned (Weather.Report r) /\
        Weather.hot_anomalies r
        = map (fun s => (date s, max_temp s))
              (List.filter (is_hot normal_max delta) w) /\
        Weather.cold_anomalies r
        = map (fun s => (date s, min_temp s))
              (List.filter (is_cold normal_min delta) w) /\
        forall s, s ∈ w ->
          ((date s, max_temp s) ∈ Weather.hot_anomalies r
           <-> normal_max + delta < max_temp s) /\
          ((date s, min_temp s) ∈ Weather.cold_anomalies r
           <-> min_temp s < normal_min - delta)) /\
  Weather.NORMAL_MAX_TEMP_HYD + Weather.ANOMALY_THRESHOLD_DEGREES == 32.0 /\
  (forall (w : list DailySample) s,
      s ∈ w -> max_temp s == 33 ->
      exists r,
        Weather.analyze_weather_data Weather.NORMAL_MAX_TEMP_HYD
          Weather.NORMAL_MIN_TEMP_HYD Weather.ANOMALY_THRESHOLD_DEGREES
          (of_window w)
        = Returned (Weather.Report r) /\
        (date s, max_temp s) ∈ Weather.hot_anomalies r).
Proof.
  assert (General : forall normal_max normal_min delta w, w <> [] ->
      exists r,
        Weather.analyze_weather_data normal_max normal_min delta (of_window w)
        = Returned (Weather.Report r) /\
        Weather.hot_anomalies r
        = map (fun s => (date s, max_temp s))
              (List.filter (is_hot normal_max delta) w) /\
        Weather.cold_anomalies r
        = map (fun s => (date s, min_temp s))
              (List.filter (is_cold normal_min delta) w) /\
        forall s, s ∈ w ->
          ((date s, max_temp s) ∈ Weather.hot_anomalies r
           <-> normal_max + delta < max_temp s) /\
          ((date s, min_temp s) ∈ Weather.cold_anomalies r
           <-> min_temp s < normal_min - delta)).
  { intros normal_max normal_min delta w Hw.
    destruct (Weather_run normal_max normal_min delta w Hw)
      as (ih & il & sh & sl & _ & _ & _ & _ & E).
    eexists. split; [exact E|].
    rewrite (hot_of_normal_lines normal_max normal_min delta w) by reflexivity.
    rewrite (cold_of_normal_lines normal_max normal_min delta w) by reflexivity.
    repeat (split; [reflexivity|]).
    intros s Hs. split; [now apply hot_listed_iff|now apply cold_listed_iff]. }
  split; [exact General|]. split; [reflexivity|].
  intros w s Hs H33.
  assert (Hw : w <> []) by (intros ->; inversion Hs).
  destruct (General Weather.NORMAL_MAX_TEMP_HYD Weather.NORMAL_MIN_TEMP_HYD
              Weather.ANOMALY_THRESHOLD_DEGREES w Hw) as (r & E & _ & _ & Hiff).
  exists r. split; [exact E|]. apply (Hiff s Hs).
  unfold Weather.NORMAL_MAX_TEMP_HYD, Weather.ANOMALY_THRESHOLD_DEGREES. lra.
Qed.

Lemma C3_relative_to_fixed_normal_witness :
  hyderabad_window <> [] /\
  hyderabad_hot_day ∈ hyderabad_window /\
  max_temp hyderabad_hot_day == 33 /\
  (exists r,
     Weather.analyze_weather_data 29.5 22.5 2.5 (of_window hyderabad_window)
     = Returned (Weather.Report r) /\
     Weather.hot_anomalies r
     = map (fun s => (date s, max_temp s))
           (List.filter (is_hot 29.5 2.5) hyderabad_window)) /\
  (exists r,
     Weather.analyze_weather_data Weather.NORMAL_MAX_TEMP_HYD
       Weather.NORMAL_MIN_TEMP_HYD Weather.ANOMALY_THRESHOLD_DEGREES
       (of_window hyderabad_window)
     = Returned (Weather.Report r) /\
     (date hyderabad_hot_day, max_temp hyderabad_hot_day)
       ∈ Weather.hot_anomalies r).
Proof.
  assert (Hin : hyderabad_hot_day ∈ hyderabad_window)
    by (unfold hyderabad_hot_day, hyderabad_window; repeat constructor).
  assert (H33 : max_temp hyderabad_hot_day == 33) by reflexivity.
  split; [discriminate|]. split; [exact Hin|]. split; [exact H33|].
  destruct C3_relative_to_fixed_normal as (H & _ & H').
  split.
  - destruct (H 29.5 22.5 2.5 hyderabad_window ltac:(discriminate))
      as (r & E & Hh & _).
    exists r. split; assumption.
  - exact (H' hyderabad_window hyderabad_hot_day Hin H33).
Defined.

(** ** Failure *)

Lemma DagDay1_empty (delta : Q) :
  DagDay1.analyze_weather_data delta (of_window []) = Raised ValueError.
Proof. reflexivity. Qed.

Lemma Weather_empty (normal_max normal_min delta : Q) :
  Weather.analyze_weather_data normal_max normal_min delta (of_window [])
  = Raised ValueError.
Proof. reflexivity. Qed.

Lemma Dag1_empty (df : Dag1.DataFrame) :
  Dag1.rows df = [] ->
  Dag1.analyze_weather_data (Some df) = Returned (Dag1.NoData, Some df).
Proof.
  intros Hr. unfold Dag1.analyze_weather_data, Dag1.empty. now rewrite Hr.
Qed.

(** C4, as the claim states it, fails on [dag_1.py]: the empty frame is
    answered with the "no data" message and a normal return, not with an
    error. *)
Lemma C4_counterexample :
  Dag1.analyze_weather_data (Some (frame_of_window []))
  = Returned (Dag1.NoData, Some (frame_of_window [])) /\
  ~ exists e, Dag1.analyze_weather_data (Some (frame_of_window [])) = Raised e.
Proof.
  split; [reflexivity|]. intros (e & He). discriminate He.
Qed.

(** C4, amended: the list-based analyzers fail exactly on the empty window,
    with the [ValueError] of [max()], and report on every other window; the
    pandas analyzer never fails: it answers "no data" exactly on the empty
    window (and on no frame at all) and reports otherwise. *)
Theorem C4_errors (w : list DailySample) :
  (forall delta,
      (forall e, DagDay1.analyze_weather_data delta (of_window w) = Raised e
                 <-> e = ValueError /\ w = []) /\
      ((exists r, DagDay1.analyze_weather_data delta (of_window w)
                  = Returned (DagDay1.Report r)) <-> w <> [])) /\
  (forall normal_max normal_min delta,
      (forall e, Weather.analyze_weather_data normal_max normal_min delta
                   (of_window w) = Raised e
                 <-> e = ValueError /\ w = []) /\
      ((exists r, Weather.analyze_weather_data normal_max normal_min delta
                    (of_window w)
                  = Returned (Weather.Report r)) <-> w <> [])) /\
  (exists out df',
      Dag1.analyze_weather_data (Some (frame_of_window w))
      = Returned (out, df') /\
      (out = Dag1.NoData <-> w = [])) /\
  (forall df, exists out df', Dag1.analyze_weather_data df = Returned (out, df')).
Proof.
  split; [|split; [|split]].
  - intros delta. destruct w as [|s0 w0].
    + rewrite DagDay1_empty. split.
      * intros e. split; [intros [= <-]; auto|intros (-> & _); reflexivity].
      * split; [intros (r & Hr); discriminate|congruence].
    + destruct (DagDay1_run delta (s0 :: w0) ltac:(discriminate))
        as (ih & il & sh & sl & _ & _ & _ & _ & E).
      rewrite E. split.
      * intros e. split; [discriminate|intros (_ & H); discriminate].
      * split; [discriminate|eauto].
  - intros normal_max normal_min delta. destruct w as [|s0 w0].
    + rewrite Weather_empty. split.
      * intros e. split; [intros [= <-]; auto|intros (-> & _); reflexivity].
      * split; [intros (r & Hr); discriminate|congruence].
    + destruct (Weather_run normal_max normal_min delta (s0 :: w0)
                  ltac:(discriminate))
        as (ih & il & sh & sl & _ & _ & _ & _ & E).
      rewrite E. split.
      * intros e. split; [discriminate|intros (_ & H); discriminate].
      * split; [discriminate|eauto].
  - destruct w as [|s0 w0].
    + exists Dag1.NoData, (Some (frame_of_window [])). split; [reflexivity|].
      split; reflexivity.
    + destruct (Dag1_analyze_nonempty (frame_of_window (s0 :: w0))
                  ltac:(discriminate)) as (r & _ & E).
      eexists _, _. split; [exact E|]. split; discriminate.
  - intros [df|]; [|eexists _, _; reflexivity].
    destruct (Dag1.rows df) as [|x l] eqn:Hr.
    + eexists _, _. now apply Dag1_empty.
    + destruct (Dag1_analyze_nonempty df) as (rep & _ & E); [congruence|].
      eexists _, _. exact E.
Qed.

Lemma C4_errors_witness :
  DagDay1.example_window <> [] /\
  exists r,
    DagDay1.analyze_weather_data 5 (of_window DagDay1.example_window)
    = Returned (DagDay1.Report r).
Proof.
  split; [discriminate|].
  destruct (C4_errors DagDay1.example_window) as (H & _).
  destruct (H 5) as (_ & H'). apply H'. discriminate.
Defined.

(** A reply whose lists differ in length is not a window; the first loop
    then stops with [IndexError]. *)
Example ragged_reply_index_error :
  DagDay1.analyze_weather_data 5
    (Some {| time := ["2024-01-01"; "2024-01-02"]%string;
             temperature_2m_max := [30];
             temperature_2m_min := [20] |})
  = Raised IndexError.
Proof. reflexivity. Qed.

(** A reply without daily records is answered with the "no valid data"
    message. *)
Example no_daily_records (delta : Q) :
  DagDay1.analyze_weather_data delta None = Returned DagDay1.NoValidData.
Proof. reflexivity. Qed.

(** * Further properties of the analyzers *)

(** ** The listing and the closing message of the list-based scripts *)

Lemma found_of_false {A} (l : list A) : found_of l = false <-> l = [].
Proof. destruct l; split; intros H; congruence || reflexivity || discriminate. Qed.

Lemma flat_map_nil_iff {A B} (f : A -> list B) (w : list A) :
  flat_map f w = [] <-> forall s, s ∈ w -> f s = [].
Proof.
  induction w as [|a w IH]; cbn [flat_map].
  - split; [intros _ s Hs; inversion Hs|reflexivity].
  - split.
    + intros H. apply app_eq_nil in H as (Ha & Hw).
      intros s Hs. apply elem_of_cons in Hs as [->|Hs]; [exact Ha|].
      now apply IH.
    + intros H. rewrite (H a) by left. apply IH.
      intros s Hs. apply H. now right.
Qed.

(** X1: the first loop of [dag_day_1.py] and of [weather.py] lists every day
    of a non-empty window once, in window order, with its own maximum and
    minimum. *)
Theorem X1_records_listed (w : list DailySample) :
  w <> [] ->
  (forall delta, exists r,
      DagDay1.analyze_weather_data delta (of_window w)
      = Returned (DagDay1.Report r) /\
      length (DagDay1.records r) = length w /\
      forall i s, w !! i = Some s ->
                  DagDay1.records r !! i = Some (date s, max_temp s, min_temp s)) /\
  (forall normal_max normal_min delta, exists r,
      Weather.analyze_weather_data normal_max normal_min delta (of_window w)
      = Returned (Weather.Report r) /\
      length (Weather.records r) = length w /\
      forall i s, w !! i = Some s ->
                  Weather.records r !! i = Some (date s, max_temp s, min_temp s)).
Proof.
  intros Hw. split.
  - intros delta.
    destruct (DagDay1_run delta w Hw) as (ih & il & sh & sl & _ & _ & _ & _ & E).
    eexists. split; [exact E|]. cbn [DagDay1.records].
    split; [apply length_map|].
    intros i s Hi. now rewrite lookup_map, Hi.
  - intros normal_max normal_min delta.
    destruct (Weather_run normal_max normal_min delta w Hw)
      as (ih & il & sh & sl & _ & _ & _ & _ & E).
    eexists. split; [exact E|]. cbn [Weather.records].
    split; [apply length_map|].
    intros i s Hi. now rewrite lookup_map, Hi.
Qed.

Lemma X1_records_listed_witness :
  DagDay1.example_window <> [] /\
  exists r,
    DagDay1.analyze_weather_data 5 (of_window DagDay1.example_window)
    = Returned (DagDay1.Report r) /\
    length (DagDay1.records r) = length DagDay1.example_window.
Proof.
  split; [discriminate|].
  destruct (X1_records_listed DagDay1.example_window ltac:(discriminate))
    as (H & _).
  destruct (H 5) as (r & E & L & _). exists r. split; assumption.
Defined.

(** ** The distance printed by weather.py *)

(** ** Replies whose lists differ in length *)

Lemma for_range_returned {St} (body : nat -> St -> result St) :
  forall idxs s s',
    for_range body idxs s = Returned s' ->
    forall i, i ∈ idxs -> exists a b, body i a = Returned b.
Proof.
  induction idxs as [|k idxs IH]; intros s s' H i Hi; [inversion Hi|].
  cbn [for_range] in H. destruct (body k s) as [s1|e] eqn:Hk; [|discriminate H].
  rewrite bind_Returned in H.
  apply elem_of_cons in Hi as [->|Hi]; [eauto|eapply IH; eauto].
Qed.

Lemma for_range_raised {St} (body : nat -> St -> result St) (e0 : exception) :
  (forall i s e, body i s = Raised e -> e = e0) ->
  forall idxs s e, for_range body idxs s = Raised e -> e = e0.
Proof.
  intros Hbody. induction idxs as [|k idxs IH]; intros s e H; [discriminate H|].
  cbn [for_range] in H. destruct (body k s) as [s1|e1] eqn:Hk.
  - rewrite bind_Returned in H. eapply IH; eauto.
  - injection H as <-. eapply Hbody; eauto.
Qed.

Lemma print_record_returned dates max_temps min_temps i out out' :
  DagDay1.print_record dates max_temps min_temps i out = Returned out' ->
  is_Some (max_temps !! i) /\ is_Some (min_temps !! i).
Proof.
  unfold DagDay1.print_record, py_getitem.
  destruct (dates !! i); [|discriminate]. rewrite bind_Returned.
  destruct (max_temps !! i); [|discriminate]. rewrite bind_Returned.
  destruct (min_temps !! i); [|discriminate]. eauto.
Qed.

Lemma print_record_raised dates max_temps min_temps i out e :
  DagDay1.print_record dates max_temps min_temps i out = Raised e ->
  e = IndexError.
Proof.
  unfold DagDay1.print_record, py_getitem.
  destruct (dates !! i); [rewrite bind_Returned|intros [= <-]; reflexivity].
  destruct (max_temps !! i); [rewrite bind_Returned|intros [= <-]; reflexivity].
  destruct (min_temps !! i); [discriminate|intros [= <-]; reflexivity].
Qed.

Lemma print_loop_ragged (dates : list string) (max_temps min_temps : list Q) :
  (length max_temps < length dates)%nat \/
  (length min_temps < length dates)%nat ->
  for_range (DagDay1.print_record dates max_temps min_temps)
            (range (length dates)) []
  = Raised IndexError.
Proof.
  intros Hlen.
  destruct (for_range _ _ _) as [out|e] eqn:E.
  - exfalso. destruct Hlen as [Hlen|Hlen].
    + destruct (for_range_returned _ _ _ _ E (length max_temps)) as (a & b & Hb).
      { apply elem_of_seq. lia. }
      apply print_record_returned in Hb as ((x & Hx) & _).
      apply lookup_lt_Some in Hx. lia.
    + destruct (for_range_returned _ _ _ _ E (length min_temps)) as (a & b & Hb).
      { apply elem_of_seq. lia. }
      apply print_record_returned in Hb as (_ & (x & Hx)).
      apply lookup_lt_Some in Hx. lia.
  - f_equal. eapply for_range_raised; [|exact E].
    intros i s e'. apply print_record_raised.
Qed.

(** X4: when the reply names more days than it has maxima, or more days than
    it has minima, [dag_day_1.py] and [weather.py] stop with [IndexError]
    (in the listing loop, before any extreme or anomaly is computed). *)
Theorem X4_ragged_reply (d : daily_records) :
  (length (temperature_2m_max d) < length (time d))%nat \/
  (length (temperature_2m_min d) < length (time d))%nat ->
  (forall delta,
      DagDay1.analyze_weather_data delta (Some d) = Raised IndexError) /\
  (forall normal_max normal_min delta,
      Weather.analyze_weather_data normal_max normal_min delta (Some d)
      = Raised IndexError).
Proof.
  intros Hlen. split.
  - intros delta. unfold DagDay1.analyze_weather_data. cbv zeta.
    now rewrite (print_loop_ragged _ _ _ Hlen).
  - intros normal_max normal_min delta.
    unfold Weather.analyze_weather_data. cbv zeta.
    change Weather.print_record with DagDay1.print_record.
    now rewrite (print_loop_ragged _ _ _ Hlen).
Qed.

Lemma X4_ragged_reply_witness :
  DagDay1.analyze_weather_data 5
    (Some {| time := ["2024-01-01"; "2024-01-02"]%string;
             temperature_2m_max := [30; 31];
             temperature_2m_min := [20] |})
  = Raised IndexError.
Proof.
  apply (X4_ragged_reply
           {| time := ["2024-01-01"; "2024-01-02"]%string;
              temperature_2m_max := [30; 31];
              temperature_2m_min := [20] |}).
  right. cbn. lia.
Defined.

(** ** Anomalies against the extremes *)

Lemma map_filter_nil_iff {A B} (f : A -> B) (p : A -> bool) (l : list A) :
  map f (List.filter p l) = [] <-> forall x, x ∈ l -> p x = false.
Proof.
  induction l as [|a l IH]; cbn [List.filter].
  - split; [intros _ x Hx; inversion Hx|reflexivity].
  - destruct (p a) eqn:Ha; cbn [map]; split.
    + discriminate.
    + intros H. specialize (H a ltac:(left)). congruence.
    + intros H x Hx. apply elem_of_cons in Hx as [->|Hx]; [exact Ha|].
      now apply IH.
    + intros H. apply IH. intros x Hx. apply H. now right.
Qed.

(** ** What a mean-relative threshold can and cannot flag *)










(** ** The scripts against each other *)

Lemma first_max_unique L a m a' m' :
  first_max L a m -> first_max L a' m' -> a = a' /\ m = m'.
Proof.
  intros (Ha & Hle & Hlt) (Ha' & Hle' & Hlt').
  assert (a = a') as <-.
  { destruct (lt_eq_lt_dec a a') as [[H|H]|H]; [|exact H|].
    - specialize (Hlt' a m H Ha).
      assert (m' <= m) by (apply Hle; eapply list_elem_of_lookup_2; eauto). lra.
    - specialize (Hlt a' m' H Ha').
      assert (m <= m') by (apply Hle'; eapply list_elem_of_lookup_2; eauto). lra. }
  split; [reflexivity|congruence].
Qed.

Lemma first_min_unique L a m a' m' :
  first_min L a m -> first_min L a' m' -> a = a' /\ m = m'.
Proof.
  intros (Ha & Hle & Hlt) (Ha' & Hle' & Hlt').
  assert (a = a') as <-.
  { destruct (lt_eq_lt_dec a a') as [[H|H]|H]; [|exact H|].
    - specialize (Hlt' a m H Ha).
      assert (m <= m') by (apply Hle; eapply list_elem_of_lookup_2; eauto). lra.
    - specialize (Hlt a' m' H Ha').
      assert (m' <= m) by (apply Hle'; eapply list_elem_of_lookup_2; eauto). lra. }
  split; [reflexivity|congruence].
Qed.




(** ** More on the pandas analyzer *)

Lemma sublist_filter_map {A B} (f : A -> B) (p : A -> bool) (l : list A) :
  sublist (map f (List.filter p l)) (map f l).
Proof.
  induction l as [|a l IH]; cbn [List.filter map]; [constructor|].
  destruct (p a); cbn [map]; [now apply sublist_skip|now apply sublist_cons].
Qed.

(** ** The frame dag_1.py builds, and its script body *)

Lemma rows_of_window (w : list DailySample) :
  zip_with (fun (dm : string * Q) (mn : Q) =>
              {| Dag1.date := dm.1;
                 Dag1.max_temp_celsius := dm.2;
                 Dag1.min_temp_celsius := mn |})
           (zip (map date w) (map max_temp w)) (map min_temp w)
  = map to_row w.
Proof. induction w as [|s w IH]; [reflexivity|]. cbn. now rewrite IH. Qed.

Lemma convert_rows_of_window (w : list DailySample) :
  zip_with (fun (d : string) (r : Dag1.row) =>
              {| Dag1.date := d;
                 Dag1.max_temp_celsius := Dag1.max_temp_celsius r;
                 Dag1.min_temp_celsius := Dag1.min_temp_celsius r |})
           (map date w) (map to_row w)
  = map to_row w.
Proof. induction w as [|s w IH]; [reflexivity|]. cbn. now rewrite IH. Qed.

Lemma get_weather_data_window (to_datetime : list string -> option (list string))
    (w : list DailySample) :
  to_datetime (map date w) = Some (map date w) ->
  Dag1Script.get_weather_data to_datetime (Dag1Script.Body (of_window w))
  = Some (Dag1Script.Complete (frame_of_window w)).
Proof.
  intros Hparse.
  unfold Dag1Script.get_weather_data, of_window, Dag1Script.DataFrame.
  cbn [time temperature_2m_max temperature_2m_min].
  rewrite decide_True by (rewrite !length_map; auto).
  rewrite rows_of_window. cbn [mbind option_bind].
  unfold Dag1Script.convert_dates. cbn [Dag1.rows Dag1.derived].
  replace (map Dag1.date (map to_row w)) with (map date w)
    by (rewrite map_map; now apply map_ext).
  rewrite Hparse. cbn [mbind option_bind].
  now rewrite convert_rows_of_window.
Qed.

(** * Floating point *)

(** ** The rounding to the nearest double *)

Lemma pow2_pos (k : Z) : 0 < 2 ^ k.
Proof. apply Qpower_0_lt. reflexivity. Qed.

Lemma pow2_Z (n : Z) : (0 <= n)%Z -> inject_Z (2 ^ n) == 2 ^ n.
Proof. intros H. now rewrite Zpower_Qpower. Qed.

Lemma pow2_le (a b : Z) : (a <= b)%Z -> 2 ^ a <= 2 ^ b.
Proof. intros H. apply Qpower_le_compat_l; [exact H|discriminate]. Qed.

Lemma pow2_lt_inv (a b : Z) : 2 ^ a < 2 ^ b -> (a < b)%Z.
Proof.
  intros H. destruct (Z_lt_le_dec a b) as [L|L]; [exact L|].
  apply pow2_le in L. lra.
Qed.

Lemma Zlog2_bounds (n : Z) :
  (0 < n)%Z -> 2 ^ Z.log2 n <= inject_Z n /\ inject_Z n < 2 ^ (Z.log2 n + 1).
Proof.
  intros H. destruct (Z.log2_spec n H) as (L & U).
  pose proof (Z.log2_nonneg n) as N.
  rewrite <- !pow2_Z by lia. rewrite <- Zle_Qle, <- Zlt_Qlt.
  split; [exact L|]. now rewrite <- Z.add_1_r in U.
Qed.

Lemma ilog2_bounds (x : Q) :
  0 < x -> 2 ^ ilog2 x <= x /\ x < 2 ^ (ilog2 x + 1).
Proof.
  intros Hx. unfold ilog2.
  set (lp := Z.log2 (Qnum x)). set (lq := Z.log2 (QDen x)).
  assert (Hp : (0 < Qnum x)%Z).
  { unfold Qlt in Hx. simpl in Hx. lia. }
  destruct (Zlog2_bounds (Qnum x) Hp) as (Lp & Up).
  destruct (Zlog2_bounds (QDen x) ltac:(lia)) as (Lq & Uq).
  fold lp in Lp, Up. fold lq in Lq, Uq.
  assert (Ex : x == inject_Z (Qnum x) / inject_Z (QDen x)).
  { destruct x as [p q]. unfold Qeq, Qdiv, Qmult, Qinv, inject_Z. simpl. lia. }
  pose proof (pow2_pos lp). pose proof (pow2_pos lq).
  pose proof (pow2_pos (lp + 1)). pose proof (pow2_pos (lq + 1)).
  assert (Hq : 0 < inject_Z (QDen x)) by lra.
  assert (Low : 2 ^ (lp - lq - 1) <= x).
  { replace (lp - lq - 1)%Z with (lp - (lq + 1))%Z by lia.
    rewrite Qpower_minus by discriminate. rewrite Ex.
    apply Qle_shift_div_l; [exact Hq|].
    unfold Qdiv. rewrite <- Qmult_assoc, (Qmult_comm (/ _)).
    rewrite Qmult_assoc. apply Qle_shift_div_r; [assumption|].
    nra. }
  assert (Upp : x < 2 ^ (lp - lq + 1)).
  { replace (lp - lq + 1)%Z with (lp + 1 - lq)%Z by lia.
    rewrite Qpower_minus by discriminate. rewrite Ex.
    apply Qlt_shift_div_r; [exact Hq|].
    unfold Qdiv. rewrite <- Qmult_assoc, (Qmult_comm (/ _)).
    rewrite Qmult_assoc. apply Qlt_shift_div_l; [assumption|].
    nra. }
  destruct (Qle_bool (2 ^ (lp - lq)) x) eqn:E.
  - apply Qle_bool_iff in E. split; assumption.
  - assert (x < 2 ^ (lp - lq)).
    { destruct (Qlt_le_dec x (2 ^ (lp - lq))) as [L|L]; [exact L|].
      apply Qle_bool_iff in L. congruence. }
    replace (lp - lq - 1 + 1)%Z with (lp - lq)%Z by lia. split; assumption.
Qed.


Lemma rne_Z (n : Z) : rne (inject_Z n) = n.
Proof.
  unfold rne. rewrite Qfloor_Z.
  destruct (Qcompare_spec (inject_Z n - inject_Z n) (1 # 2)) as [E|E|E];
    try reflexivity; exfalso; lra.
Qed.

Lemma rne_monotone (x y : Q) : x <= y -> (rne x <= rne y)%Z.
Proof.
  intros H. pose proof (Qfloor_resp_le x y H) as F.
  pose proof (Qfloor_le x) as Lx. pose proof (Qlt_floor x) as Ux.
  pose proof (Qfloor_le y) as Ly. pose proof (Qlt_floor y) as Uy.
  unfold rne.
  destruct (Z.eq_dec (Qfloor x) (Qfloor y)) as [E|E].
  - rewrite E in *.
    destruct (Qcompare_spec (x - inject_Z (Qfloor y)) (1 # 2)) as [A|A|A];
    destruct (Qcompare_spec (y - inject_Z (Qfloor y)) (1 # 2)) as [B|B|B];
    destruct (Z.even (Qfloor y)); try lia; exfalso; lra.
  - assert (Qfloor x + 1 <= Qfloor y)%Z by lia.
    destruct (Qcompare_spec (x - inject_Z (Qfloor x)) (1 # 2)) as [A|A|A];
    destruct (Qcompare_spec (y - inject_Z (Qfloor y)) (1 # 2)) as [B|B|B];
    destruct (Z.even (Qfloor x)); destruct (Z.even (Qfloor y)); lia.
Qed.

Lemma binary64_zero (x : Q) : x == 0 -> binary64 x = 0.
Proof.
  intros H. unfold binary64. now rewrite (proj2 (Qeq_bool_iff x 0) H).
Qed.

Lemma binary64_scaled (x : Q) :
  ~ x == 0 ->
  binary64 x
  == inject_Z (rne (x / 2 ^ (ilog2 (Qabs x) - 52))) * 2 ^ (ilog2 (Qabs x) - 52).
Proof.
  intros H. unfold binary64.
  destruct (Qeq_bool x 0) eqn:E; [apply Qeq_bool_iff in E; contradiction|].
  apply Qred_correct.
Qed.

Lemma Qabs_pos_lt (x : Q) : ~ x == 0 -> 0 < Qabs x.
Proof.
  intros H. pose proof (Qabs_nonneg x).
  destruct (Qeq_dec (Qabs x) 0) as [E|E]; [|lra].
  exfalso. apply H. revert E. apply Qabs_case; intros; lra.
Qed.

Lemma scaled_bounds (x : Q) :
  ~ x == 0 ->
  2 ^ 52 <= Qabs (x / 2 ^ (ilog2 (Qabs x) - 52)) /\
  Qabs (x / 2 ^ (ilog2 (Qabs x) - 52)) < 2 ^ 53.
Proof.
  intros H. set (e := ilog2 (Qabs x)).
  destruct (ilog2_bounds (Qabs x) (Qabs_pos_lt x H)) as (L & U). fold e in L, U.
  pose proof (pow2_pos (e - 52)) as P.
  assert (E1 : 2 ^ e == 2 ^ 52 * 2 ^ (e - 52)).
  { rewrite <- Qpower_plus by discriminate. now replace (52 + (e - 52))%Z with e by lia. }
  assert (E2 : 2 ^ (e + 1) == 2 ^ 53 * 2 ^ (e - 52)).
  { rewrite <- Qpower_plus by discriminate. now replace (53 + (e - 52))%Z with (e + 1)%Z by lia. }
  unfold Qdiv. rewrite Qabs_Qmult, (Qabs_pos (/ _)) by (apply Qlt_le_weak, Qinv_lt_0_compat, P).
  split.
  - apply Qle_shift_div_l; [exact P|]. lra.
  - apply Qlt_shift_div_r; [exact P|]. lra.
Qed.


Lemma binary64_pos (x : Q) :
  0 < x ->
  2 ^ ilog2 (Qabs x) <= binary64 x /\ binary64 x <= 2 ^ (ilog2 (Qabs x) + 1).
Proof.
  intros Hx. assert (NZ : ~ x == 0) by lra.
  rewrite (binary64_scaled x NZ). set (e := ilog2 (Qabs x)).
  pose proof (pow2_pos (e - 52)) as P.
  destruct (scaled_bounds x NZ) as (L & U). fold e in L, U.
  assert (Hy : 0 < x / 2 ^ (e - 52)).
  { apply Qlt_shift_div_l; [exact P|]. lra. }
  rewrite Qabs_pos in L, U by lra.
  assert (M1 : (4503599627370496 <= rne (x / 2 ^ (e - 52)))%Z).
  { rewrite <- (rne_Z 4503599627370496). apply rne_monotone. exact L. }
  assert (M2 : (rne (x / 2 ^ (e - 52)) <= 9007199254740992)%Z).
  { rewrite <- (rne_Z 9007199254740992). apply rne_monotone.
    apply Qlt_le_weak. exact U. }
  rewrite Zle_Qle in M1, M2.
  change (inject_Z 4503599627370496) with (2 ^ 52) in M1.
  change (inject_Z 9007199254740992) with (2 ^ 53) in M2.
  assert (E1 : 2 ^ e == 2 ^ 52 * 2 ^ (e - 52)).
  { rewrite <- Qpower_plus by discriminate. now replace (52 + (e - 52))%Z with e by lia. }
  assert (E2 : 2 ^ (e + 1) == 2 ^ 53 * 2 ^ (e - 52)).
  { rewrite <- Qpower_plus by discriminate. now replace (53 + (e - 52))%Z with (e + 1)%Z by lia. }
  rewrite E1, E2. split; apply Qmult_le_compat_r; lra.
Qed.

Lemma binary64_neg (x : Q) :
  x < 0 ->
  - 2 ^ (ilog2 (Qabs x) + 1) <= binary64 x /\ binary64 x <= - 2 ^ ilog2 (Qabs x).
Proof.
  intros Hx. assert (NZ : ~ x == 0) by lra.
  rewrite (binary64_scaled x NZ). set (e := ilog2 (Qabs x)).
  pose proof (pow2_pos (e - 52)) as P.
  destruct (scaled_bounds x NZ) as (L & U). fold e in L, U.
  assert (Hy : x / 2 ^ (e - 52) < 0).
  { apply Qlt_shift_div_r; [exact P|]. lra. }
  rewrite Qabs_neg in L, U by lra.
  assert (M1 : (rne (x / 2 ^ (e - 52)) <= -4503599627370496)%Z).
  { rewrite <- (rne_Z (-4503599627370496)). apply rne_monotone.
    change (inject_Z (-4503599627370496)) with (- 2 ^ 52). lra. }
  assert (M2 : (-9007199254740992 <= rne (x / 2 ^ (e - 52)))%Z).
  { rewrite <- (rne_Z (-9007199254740992)). apply rne_monotone.
    change (inject_Z (-9007199254740992)) with (- 2 ^ 53). lra. }
  rewrite Zle_Qle in M1, M2.
  change (inject_Z (-4503599627370496)) with (- 2 ^ 52) in M1.
  change (inject_Z (-9007199254740992)) with (- 2 ^ 53) in M2.
  assert (E1 : 2 ^ e == 2 ^ 52 * 2 ^ (e - 52)).
  { rewrite <- Qpower_plus by discriminate. now replace (52 + (e - 52))%Z with e by lia. }
  assert (E2 : 2 ^ (e + 1) == 2 ^ 53 * 2 ^ (e - 52)).
  { rewrite <- Qpower_plus by discriminate. now replace (53 + (e - 52))%Z with (e + 1)%Z by lia. }
  rewrite E1, E2. split; nra.
Qed.

Lemma ilog2_abs_le (x y : Q) :
  ~ x == 0 -> Qabs x <= Qabs y -> (ilog2 (Qabs x) <= ilog2 (Qabs y))%Z.
Proof.
  intros NZ H. pose proof (Qabs_pos_lt x NZ) as Px.
  destruct (ilog2_bounds (Qabs x) Px) as (Lx & _).
  destruct (ilog2_bounds (Qabs y) ltac:(lra)) as (_ & Uy).
  assert (ilog2 (Qabs x) < ilog2 (Qabs y) + 1)%Z by (apply pow2_lt_inv; lra).
  lia.
Qed.

Lemma binary64_same_scale (x y : Q) :
  ~ x == 0 -> ~ y == 0 -> x <= y ->
  ilog2 (Qabs x) = ilog2 (Qabs y) -> binary64 x <= binary64 y.
Proof.
  intros Nx Ny H E.
  rewrite (binary64_scaled x Nx), (binary64_scaled y Ny), E.
  set (k := (ilog2 (Qabs y) - 52)%Z). pose proof (pow2_pos k) as P.
  apply Qmult_le_compat_r; [|lra]. rewrite <- Zle_Qle. apply rne_monotone.
  unfold Qdiv. apply Qmult_le_compat_r; [exact H|].
  apply Qlt_le_weak, Qinv_lt_0_compat, P.
Qed.

Lemma binary64_monotone (x y : Q) : x <= y -> binary64 x <= binary64 y.
Proof.
  intros H.
  destruct (Q_dec x 0) as [[Xn|Xp]|Xz]; destruct (Q_dec y 0) as [[Yn|Yp]|Yz];
    try (exfalso; lra).
  - (* x <= y < 0 *)
    assert (Nx : ~ x == 0) by lra. assert (Ny : ~ y == 0) by lra.
    assert (A : Qabs y <= Qabs x) by (rewrite !Qabs_neg by lra; lra).
    pose proof (ilog2_abs_le y x Ny A) as Le.
    destruct (Z.eq_dec (ilog2 (Qabs x)) (ilog2 (Qabs y))) as [E|E];
      [now apply binary64_same_scale|].
    destruct (binary64_neg x Xn) as (_ & Ux). destruct (binary64_neg y Yn) as (Ly & _).
    assert (2 ^ (ilog2 (Qabs y) + 1) <= 2 ^ ilog2 (Qabs x)) by (apply pow2_le; lia).
    lra.
  - (* x < 0 < y *)
    destruct (binary64_neg x Xn) as (_ & Ux). destruct (binary64_pos y Yp) as (Ly & _).
    pose proof (pow2_pos (ilog2 (Qabs x))). pose proof (pow2_pos (ilog2 (Qabs y))). lra.
  - (* x < 0 = y *)
    destruct (binary64_neg x Xn) as (_ & Ux). rewrite (binary64_zero y Yz).
    pose proof (pow2_pos (ilog2 (Qabs x))). lra.
  - (* 0 < x <= y *)
    assert (Nx : ~ x == 0) by lra. assert (Ny : ~ y == 0) by lra.
    assert (A : Qabs x <= Qabs y) by (rewrite !Qabs_pos by lra; lra).
    pose proof (ilog2_abs_le x y Nx A) as Le.
    destruct (Z.eq_dec (ilog2 (Qabs x)) (ilog2 (Qabs y))) as [E|E];
      [now apply binary64_same_scale|].
    destruct (binary64_pos x Xp) as (_ & Ux). destruct (binary64_pos y Yp) as (Ly & _).
    assert (2 ^ (ilog2 (Qabs x) + 1) <= 2 ^ ilog2 (Qabs y)) by (apply pow2_le; lia).
    lra.
  - (* x = 0 < y *)
    rewrite (binary64_zero x Xz). destruct (binary64_pos y Yp) as (Ly & _).
    pose proof (pow2_pos (ilog2 (Qabs y))). lra.
  - rewrite (binary64_zero x Xz), (binary64_zero y Yz). lra.
Qed.

(** On doubles of the same binade [rne] does the work; the values used as
    counterexamples are evaluated. *)
Example binary64_third : ~ binary64 (98 # 3) == 98 # 3.
Proof. intros H. vm_compute in H. discriminate H. Qed.

(** ** dag_day_1.py in floating point on a window *)

Lemma bound_spot_window (rnd : Q -> Q) (delta avg_max avg_min : Q)
    (w : list DailySample) :
  for_range (DagDay1F.spot rnd delta (map date w) (map max_temp w)
                           (map min_temp w) avg_max avg_min)
            (range (length (map date w))) (false, [])
  = Returned
      (found_of (flat_map (bound_lines (rnd (avg_max + delta))
                                       (rnd (avg_min - delta))) w),
       flat_map (bound_lines (rnd (avg_max + delta)) (rnd (avg_min - delta))) w).
Proof.
  rewrite length_map.
  set (hb := rnd (avg_max + delta)). set (cb := rnd (avg_min - delta)).
  rewrite (for_range_window w _
             (fun st s => (st.1 || found_of (bound_lines hb cb s),
                           st.2 ++ bound_lines hb cb s))).
  - now rewrite foldl_lines.
  - intros i s [b acc] Hi. unfold DagDay1F.spot, bound_lines. fold hb cb.
    rewrite !(getitem_map _ _ _ _ Hi). simpl.
    destruct (Qlt_bool hb (max_temp s));
      destruct (Qlt_bool (min_temp s) cb); simpl;
      rewrite ?(getitem_map _ _ _ _ Hi); simpl;
      rewrite ?orb_true_r, ?orb_false_r, ?app_nil_r, <- ?app_assoc; reflexivity.
Qed.

Lemma fl_statistics_mean_window {A} (rnd : Q -> Q) (f : A -> Q) (w : list A) :
  w <> [] ->
  DagDay1F.statistics_mean rnd (map f w)
  = Returned (rnd (Qsum (map f w) / Qlen w)).
Proof.
  intros Hw. destruct w as [|a w]; [congruence|].
  unfold DagDay1F.statistics_mean, Qlen. now rewrite length_map.
Qed.

Lemma DagDay1F_run (rnd : Q -> Q) (delta : Q) (w : list DailySample) :
  w <> [] ->
  exists ih il sh sl,
    w !! ih = Some sh /\ w !! il = Some sl /\
    first_max (map max_temp w) ih (max_temp sh) /\
    first_min (map min_temp w) il (min_temp sl) /\
    DagDay1F.analyze_weather_data rnd delta (of_window w)
    = Returned (DagDay1.Report
        {| DagDay1.records := map triple w;
           DagDay1.highest_temp := max_temp sh;
           DagDay1.date_of_highest := date sh;
           DagDay1.lowest_temp := min_temp sl;
           DagDay1.date_of_lowest := date sl;
           DagDay1.avg_max_temp := rnd (mean_max w);
           DagDay1.avg_min_temp := rnd (mean_min w);
           DagDay1.anomalies :=
             flat_map (bound_lines (rnd (rnd (mean_max w) + delta))
                                   (rnd (rnd (mean_min w) - delta))) w;
           DagDay1.anomalies_found :=
             found_of
               (flat_map (bound_lines (rnd (rnd (mean_max w) + delta))
                                      (rnd (rnd (mean_min w) - delta))) w)
        |}).
Proof.
  intros Hw.
  destruct (window_extremes w Hw)
    as (ih & il & sh & sl & Hh & Hl & Hmax & Hmin & Pmax & Pmin).
  exists ih, il, sh, sl. repeat split; try apply Hmax; try apply Hmin; auto.
  unfold DagDay1F.analyze_weather_data, of_window.
  cbn [time temperature_2m_max temperature_2m_min].
  rewrite print_records_window, bind_Returned.
  rewrite Pmax, bind_Returned, Pmin, bind_Returned.
  rewrite (py_index_first_max _ _ _ Hmax), bind_Returned.
  rewrite (getitem_map _ _ _ _ Hh), bind_Returned.
  rewrite (py_index_first_min _ _ _ Hmin), bind_Returned.
  rewrite (getitem_map _ _ _ _ Hl), bind_Returned.
  rewrite !(fl_statistics_mean_window rnd _ w Hw), !bind_Returned.
  fold (mean_max w) (mean_min w).
  rewrite bound_spot_window, bind_Returned. reflexivity.
Qed.

(** Without rounding the floating-point script is the exact one. *)
Lemma DagDay1F_exact (delta : Q) (wd : weather_data) :
  DagDay1F.analyze_weather_data (fun x => x) delta wd
  = DagDay1.analyze_weather_data delta wd.
Proof. reflexivity. Qed.

Lemma hot_of_bound_lines (hb cb : Q) (w : list DailySample) :
  flat_map hot_of (flat_map (bound_lines hb cb) w)
  = map (fun s => (date s, max_temp s))
        (List.filter (fun s => Qlt_bool hb (max_temp s)) w).
Proof.
  induction w as [|s w IH]; [reflexivity|].
  cbn [flat_map List.filter]. rewrite flat_map_app, IH. unfold bound_lines.
  destruct (Qlt_bool hb (max_temp s)), (Qlt_bool (min_temp s) cb); reflexivity.
Qed.

Lemma cold_of_bound_lines (hb cb : Q) (w : list DailySample) :
  flat_map cold_of (flat_map (bound_lines hb cb) w)
  = map (fun s => (date s, min_temp s))
        (List.filter (fun s => Qlt_bool (min_temp s) cb) w).
Proof.
  induction w as [|s w IH]; [reflexivity|].
  cbn [flat_map List.filter]. rewrite flat_map_app, IH. unfold bound_lines.
  destruct (Qlt_bool hb (max_temp s)), (Qlt_bool (min_temp s) cb); reflexivity.
Qed.

Lemma above_listed_iff (hb : Q) (w : list DailySample) s :
  s ∈ w ->
  (date s, max_temp s)
    ∈ map (fun s => (date s, max_temp s))
          (List.filter (fun s => Qlt_bool hb (max_temp s)) w)
  <-> hb < max_temp s.
Proof.
  intros Hs. rewrite elem_of_map_filter, <- Qlt_bool_iff. split.
  - intros (s' & _ & Hp & E). injection E as _ E. now rewrite E in Hp.
  - intros Hp. exists s. auto.
Qed.

Lemma below_listed_iff (cb : Q) (w : list DailySample) s :
  s ∈ w ->
  (date s, min_temp s)
    ∈ map (fun s => (date s, min_temp s))
          (List.filter (fun s => Qlt_bool (min_temp s) cb) w)
  <-> min_temp s < cb.
Proof.
  intros Hs. rewrite elem_of_map_filter, <- Qlt_bool_iff. split.
  - intros (s' & _ & Hp & E). injection E as _ E. now rewrite E in Hp.
  - intros Hp. exists s. auto.
Qed.

(** What [dag_day_1.py] lists, in floating point. *)
Lemma DagDay1F_lists (rnd : Q -> Q) (delta : Q) (w : list DailySample) :
  w <> [] ->
  exists r,
    DagDay1F.analyze_weather_data rnd delta (of_window w)
    = Returned (DagDay1.Report r) /\
    DagDay1.avg_max_temp r = rnd (mean_max w) /\
    DagDay1.avg_min_temp r = rnd (mean_min w) /\
    DagDay1.anomalies r
    = flat_map (bound_lines (rnd (DagDay1.avg_max_temp r + delta))
                            (rnd (DagDay1.avg_min_temp r - delta))) w /\
    DagDay1.anomalies_found r = found_of (DagDay1.anomalies r) /\
    DagDay1.hot_anomalies r
    = map (fun s => (date s, max_temp s))
          (List.filter
             (fun s => Qlt_bool (rnd (DagDay1.avg_max_temp r + delta))
                                (max_temp s)) w) /\
    DagDay1.cold_anomalies r
    = map (fun s => (date s, min_temp s))
          (List.filter
             (fun s => Qlt_bool (min_temp s)
                                (rnd (DagDay1.avg_min_temp r - delta))) w).
Proof.
  intros Hw.
  destruct (DagDay1F_run rnd delta w Hw)
    as (ih & il & sh & sl & _ & _ & _ & _ & E).
  eexists. split; [exact E|].
  unfold DagDay1.hot_anomalies, DagDay1.cold_anomalies.
  cbn [DagDay1.anomalies DagDay1.avg_max_temp DagDay1.avg_min_temp
       DagDay1.anomalies_found].
  rewrite hot_of_bound_lines, cold_of_bound_lines.
  repeat split; reflexivity.
Qed.

(** ** dag_1.py in floating point on a frame *)

Lemma Dag1F_run (rnd : Q -> Q) (series_sum : list Q -> Q) (df : Dag1.DataFrame) :
  Dag1.rows df <> [] ->
  exists ih il ia rh rl ra,
    Dag1.rows df !! ih = Some rh /\
    Dag1.rows df !! il = Some rl /\
    Dag1.rows df !! ia = Some ra /\
    first_max (map Dag1.max_temp_celsius (Dag1.rows df)) ih
              (Dag1.max_temp_celsius rh) /\
    first_min (map Dag1.min_temp_celsius (Dag1.rows df)) il
              (Dag1.min_temp_celsius rl) /\
    first_max (map (fl_fluctuation rnd) (Dag1.rows df)) ia
              (fl_fluctuation rnd ra) /\
    Dag1F.analyze_frame rnd series_sum df
    = Returned
        ({| Dag1F.table := df;
            Dag1F.highest_temp := Dag1.max_temp_celsius rh;
            Dag1F.date_of_highest_temp := Dag1.date rh;
            Dag1F.lowest_temp := Dag1.min_temp_celsius rl;
            Dag1F.date_of_lowest_temp := Dag1.date rl;
            Dag1F.max_fluctuation := fl_fluctuation rnd ra;
            Dag1F.date_of_anomaly := Dag1.date ra;
            Dag1F.avg_max_temp := fl_frame_mean_max rnd series_sum df;
            Dag1F.significant_deviations :=
              map (fl_deviation_line rnd (fl_frame_mean_max rnd series_sum df))
                  (List.filter
                     (fl_significant rnd (fl_frame_mean_max rnd series_sum df))
                     (Dag1.rows df))
         |}, fl_frame_after rnd series_sum df).
Proof.
  intros Hr.
  destruct (idxmax_column Dag1.max_temp_celsius _ Hr) as (ih & rh & Hh & Mh & Ih).
  destruct (idxmin_column Dag1.min_temp_celsius _ Hr) as (il & rl & Hl & Ml & Il).
  destruct (idxmax_column (fl_fluctuation rnd) _ Hr) as (ia & ra & Ha & Ma & Ia).
  exists ih, il, ia, rh, rl, ra. repeat split; try apply Mh; try apply Ml;
    try apply Ma; auto.
  unfold Dag1F.analyze_frame. cbv zeta.
  unfold Dag1.cell, Dag1.get_column, Dag1.loc, Dag1.set_column.
  cbn [Dag1.rows Dag1.derived].
  rewrite Ih, bind_Returned, Hh, bind_Returned.
  rewrite Il, bind_Returned, Hl, bind_Returned.
  rewrite !lookup_insert_eq. cbv beta iota. rewrite bind_Returned.
  change (fun r : Dag1.row =>
            rnd (Dag1.max_temp_celsius r - Dag1.min_temp_celsius r))
    with (fl_fluctuation rnd).
  rewrite Ia, bind_Returned, Ha, !bind_Returned.
  rewrite lookup_map, Ha. cbn [fmap option_fmap option_map].
  rewrite !bind_Returned.
  fold (fl_frame_mean_max rnd series_sum df).
  change (fun r : Dag1.row =>
            Qabs (rnd (Dag1.max_temp_celsius r
                       - fl_frame_mean_max rnd series_sum df)))
    with (fl_deviation rnd (fl_frame_mean_max rnd series_sum df)).
  rewrite (filter_zip_map (fl_deviation rnd (fl_frame_mean_max rnd series_sum df))
                          (Qlt_bool 2.0)).
  rewrite map_map. reflexivity.
Qed.

Lemma Dag1F_guard_nonempty (rnd : Q -> Q) (series_sum : list Q -> Q)
    (df : Dag1.DataFrame) :
  Dag1.rows df <> [] ->
  Dag1F.analyze_weather_data rnd series_sum (Some df)
  = (rd ← Dag1F.analyze_frame rnd series_sum df;
     mret (Dag1F.Analysis rd.1, Some rd.2)).
Proof.
  intros Hr. unfold Dag1F.analyze_weather_data, Dag1.empty.
  destruct (Dag1.rows df); [congruence|reflexivity].
Qed.

Lemma Dag1F_empty (rnd : Q -> Q) (series_sum : list Q -> Q)
    (df : Dag1.DataFrame) :
  Dag1.rows df = [] ->
  Dag1F.analyze_weather_data rnd series_sum (Some df)
  = Returned (Dag1F.NoData, Some df).
Proof.
  intros Hr. unfold Dag1F.analyze_weather_data, Dag1.empty. now rewrite Hr.
Qed.

(** The report on a non-empty frame, field by field. *)
Lemma Dag1F_report (rnd : Q -> Q) (series_sum : list Q -> Q)
    (df : Dag1.DataFrame) :
  Dag1.rows df <> [] ->
  exists r ih il ia rh rl ra,
    Dag1F.analyze_weather_data rnd series_sum (Some df)
    = Returned (Dag1F.Analysis r, Some (fl_frame_after rnd series_sum df)) /\
    Dag1.rows df !! ih = Some rh /\
    Dag1.rows df !! il = Some rl /\
    Dag1.rows df !! ia = Some ra /\
    first_max (map Dag1.max_temp_celsius (Dag1.rows df)) ih
              (Dag1.max_temp_celsius rh) /\
    first_min (map Dag1.min_temp_celsius (Dag1.rows df)) il
              (Dag1.min_temp_celsius rl) /\
    first_max (map (fl_fluctuation rnd) (Dag1.rows df)) ia
              (fl_fluctuation rnd ra) /\
    Dag1F.table r = df /\
    Dag1F.statistics r
    = (Dag1.max_temp_celsius rh, Dag1.date rh,
       Dag1.min_temp_celsius rl, Dag1.date rl,
       fl_fluctuation rnd ra, Dag1.date ra,
       fl_frame_mean_max rnd series_sum df,
       map (fl_deviation_line rnd (fl_frame_mean_max rnd series_sum df))
           (List.filter
              (fl_significant rnd (fl_frame_mean_max rnd series_sum df))
              (Dag1.rows df))).
Proof.
  intros Hr.
  destruct (Dag1F_run rnd series_sum df Hr)
    as (ih & il & ia & rh & rl & ra & Hh & Hl & Ha & Mh & Ml & Ma & E).
  eexists _, ih, il, ia, rh, rl, ra.
  split; [rewrite (Dag1F_guard_nonempty _ _ _ Hr), E; reflexivity|].
  repeat (split; [assumption|]). split; reflexivity.
Qed.




Lemma fl_frame_after_new_columns rnd series_sum (df : Dag1.DataFrame) :
  Dag1.derived (fl_frame_after rnd series_sum df) !! "temp_fluctuation"%string
  = Some (map (fl_fluctuation rnd) (Dag1.rows df)) /\
  Dag1.derived (fl_frame_after rnd series_sum df) !! "deviation_from_avg"%string
  = Some (map (fl_deviation rnd (fl_frame_mean_max rnd series_sum df))
              (Dag1.rows df)).
Proof.
  unfold fl_frame_after, Dag1.set_column. cbn [Dag1.derived Dag1.rows]. split.
  - rewrite lookup_insert_ne by discriminate. apply lookup_insert_eq.
  - apply lookup_insert_eq.
Qed.





(** ** dag_1.py in floating point on the frame of a window *)

Lemma fl_frame_mean_max_window rnd series_sum (w : list DailySample) :
  fl_frame_mean_max rnd series_sum (frame_of_window w)
  = fl_series_mean_max rnd series_sum w.
Proof.
  unfold fl_frame_mean_max, Dag1F.series_mean, frame_of_window,
    fl_series_mean_max, Qlen.
  cbn [Dag1.rows]. now rewrite map_to_row_max, !length_map.
Qed.

Lemma Dag1F_run_window rnd series_sum (w : list DailySample) :
  w <> [] ->
  exists r,
    Dag1F.analyze_weather_data rnd series_sum (Some (frame_of_window w))
    = Returned (Dag1F.Analysis r,
                Some (fl_frame_after rnd series_sum (frame_of_window w))) /\
    Dag1F.avg_max_temp r = fl_series_mean_max rnd series_sum w /\
    Dag1F.significant_deviations r
    = map (fl_deviation_line rnd (fl_series_mean_max rnd series_sum w))
          (List.filter (fl_significant rnd (fl_series_mean_max rnd series_sum w))
                       (map to_row w)).
Proof.
  intros Hw.
  assert (Hr : Dag1.rows (frame_of_window w) <> [])
    by (destruct w; [congruence|discriminate]).
  destruct (Dag1F_report rnd series_sum _ Hr)
    as (r & ih & il & ia & rh & rl & ra & E & _ & _ & _ & _ & _ & _ & _ & S).
  exists r. split; [exact E|].
  unfold Dag1F.statistics in S. rewrite fl_frame_mean_max_window in S.
  cbn [frame_of_window Dag1.rows] in S.
  split; congruence.
Qed.

Lemma fl_significant_iff rnd (avg : Q) (s : DailySample) :
  fl_significant rnd avg (to_row s) = true
  <-> 2.0 < Qabs (rnd (max_temp s - avg)).
Proof.
  unfold fl_significant, fl_deviation. cbn [to_row Dag1.max_temp_celsius].
  apply Qlt_bool_iff.
Qed.

Lemma elem_of_fl_deviation_lines rnd (avg : Q) (w : list DailySample) x :
  x ∈ map (fl_deviation_line rnd avg)
          (List.filter (fl_significant rnd avg) (map to_row w))
  <-> exists s, s ∈ w /\ 2.0 < Qabs (rnd (max_temp s - avg)) /\
                fl_deviation_line rnd avg (to_row s) = x.
Proof.
  rewrite elem_of_map_filter. split.
  - intros (r & Hr & Hp & E).
    rewrite list_elem_of_In in Hr. apply in_map_iff in Hr as (s & <- & Hs).
    exists s. rewrite list_elem_of_In, <- fl_significant_iff. auto.
  - intros (s & Hs & Hp & E). exists (to_row s).
    rewrite list_elem_of_In, in_map_iff, fl_significant_iff.
    split; [|auto]. exists s. rewrite <- list_elem_of_In. auto.
Qed.

(** The lines are a function of the dates and the maxima. *)
Lemma fl_lines_ignore_minima rnd (avg : Q) (w w' : list DailySample) :
  map date w' = map date w ->
  map max_temp w' = map max_temp w ->
  map (fl_deviation_line rnd avg)
      (List.filter (fl_significant rnd avg) (map to_row w'))
  = map (fl_deviation_line rnd avg)
        (List.filter (fl_significant rnd avg) (map to_row w)).
Proof.
  revert w'. induction w as [|s w IH]; intros [|s' w'] Hd Hm;
    try discriminate; [reflexivity|].
  cbn [map] in Hd, Hm. injection Hd as Ed Hd. injection Hm as Em Hm.
  assert (Hsig : fl_significant rnd avg (to_row s')
                 = fl_significant rnd avg (to_row s)).
  { unfold fl_significant, fl_deviation.
    cbn [to_row Dag1.max_temp_celsius]. now rewrite Em. }
  assert (Hline : fl_deviation_line rnd avg (to_row s')
                  = fl_deviation_line rnd avg (to_row s)).
  { unfold fl_deviation_line, fl_deviation.
    cbn [to_row Dag1.max_temp_celsius Dag1.date]. now rewrite Ed, Em. }
  cbn [map List.filter]. rewrite Hsig.
  destruct (fl_significant rnd avg (to_row s)); [|now apply IH].
  cbn [map]. rewrite Hline. f_equal. now apply IH.
Qed.

(** * The claims that depend on the arithmetic *)

(** C2, as the claim states it, fails twice.  At the shipped threshold 5.0
    [dag_day_1.py] lists no hot day on the window with maxima 15.1, 25.1
    although the second maximum exceeds the mean maximum by more than 5.0:
    the script compares with the float [avg + 5.0], which rounds up to the
    maximum itself.  And [dag_1.py] lists nothing on a window whose second
    day lies 10 below the mean minimum: it never looks at minima. *)
Lemma C2_counterexample :
  (exists r s,
      DagDay1F.analyze_weather_data binary64 DagDay1.ANOMALY_THRESHOLD_DEGREES
        (of_window edge_window)
      = Returned (DagDay1.Report r) /\
      s ∈ edge_window /\
      mean_max edge_window + DagDay1.ANOMALY_THRESHOLD_DEGREES < max_temp s /\
      DagDay1.hot_anomalies r = []) /\
  (exists r df',
      Dag1F.analyze_weather_data binary64 (fl_sum binary64)
        (Some (frame_of_window cold_only_window))
      = Returned (Dag1F.Analysis r, df') /\
      cold_only_day ∈ cold_only_window /\
      min_temp cold_only_day < mean_min cold_only_window - 2.0 /\
      Dag1F.significant_deviations r = []).
Proof.
  split.
  - eexists _, (parsed "2024-08-21" 25.1 17.1).
    split; [vm_compute; reflexivity|].
    split; [unfold edge_window; repeat constructor|].
    split; [vm_compute; reflexivity|reflexivity].
  - destruct (Dag1F_run_window binary64 (fl_sum binary64) cold_only_window
                ltac:(discriminate)) as (r & E & _ & Es).
    exists r, (Some (fl_frame_after binary64 (fl_sum binary64)
                       (frame_of_window cold_only_window))).
    split; [exact E|].
    split; [unfold cold_only_day, cold_only_window; repeat constructor|].
    split; [vm_compute; reflexivity|].
    rewrite Es. vm_compute. reflexivity.
Qed.

(** C2, amended.  [dag_day_1.py]: on every non-empty window, for every
    threshold and however the floats round, a day is a hot anomaly exactly
    when its [max_temp] exceeds the float [avg_max_temp + threshold] and a
    cold anomaly exactly when its [min_temp] is below the float
    [avg_min_temp - threshold], where the two averages are the window's
    arithmetic means rounded once; the lists follow window order, the two
    tests are separate and a day can be in both lists.  [dag_1.py]: a day is
    listed exactly when the absolute value of the float [max_temp - mean]
    exceeds 2.0, and the lines do not depend on the minima. *)
Theorem C2_relative_to_mean :
  (forall (rnd : Q -> Q) (delta : Q) (w : list DailySample),
      w <> [] ->
      exists r,
        DagDay1F.analyze_weather_data rnd delta (of_window w)
        = Returned (DagDay1.Report r) /\
        DagDay1.avg_max_temp r = rnd (mean_max w) /\
        DagDay1.avg_min_temp r = rnd (mean_min w) /\
        DagDay1.hot_anomalies r
        = map (fun s => (date s, max_temp s))
              (List.filter
                 (fun s => Qlt_bool (rnd (DagDay1.avg_max_temp r + delta))
                                    (max_temp s)) w) /\
        DagDay1.cold_anomalies r
        = map (fun s => (date s, min_temp s))
              (List.filter
                 (fun s => Qlt_bool (min_temp s)
                                    (rnd (DagDay1.avg_min_temp r - delta))) w) /\
        forall s, s ∈ w ->
          ((date s, max_temp s) ∈ DagDay1.hot_anomalies r
           <-> rnd (DagDay1.avg_max_temp r + delta) < max_temp s) /\
          ((date s, min_temp s) ∈ DagDay1.cold_anomalies r
           <-> min_temp s < rnd (DagDay1.avg_min_temp r - delta))) /\
  (exists r,
      DagDay1F.analyze_weather_data binary64 DagDay1.ANOMALY_THRESHOLD_DEGREES
        (of_window swing_window)
      = Returned (DagDay1.Report r) /\
      swing_day ∈ swing_window /\
      (date swing_day, max_temp swing_day) ∈ DagDay1.hot_anomalies r /\
      (date swing_day, min_temp swing_day) ∈ DagDay1.cold_anomalies r) /\
  (forall (rnd : Q -> Q) (series_sum : list Q -> Q) (w w' : list DailySample),
      w <> [] ->
      map date w' = map date w ->
      map max_temp w' = map max_temp w ->
      exists r df r' df',
        Dag1F.analyze_weather_data rnd series_sum (Some (frame_of_window w))
        = Returned (Dag1F.Analysis r, df) /\
        Dag1F.analyze_weather_data rnd series_sum (Some (frame_of_window w'))
        = Returned (Dag1F.Analysis r', df') /\
        Dag1F.significant_deviations r' = Dag1F.significant_deviations r /\
        forall s, s ∈ w ->
          ((exists dir,
              (date s, max_temp s,
               Qabs (rnd (max_temp s - Dag1F.avg_max_temp r)), dir)
                ∈ Dag1F.significant_deviations r)
           <-> 2.0 < Qabs (rnd (max_temp s - Dag1F.avg_max_temp r)))).
Proof.
  split; [|split].
  - intros rnd delta w Hw.
    destruct (DagDay1F_lists rnd delta w Hw)
      as (r & E & Ea & Ei & _ & _ & Hh & Hc).
    exists r. split; [exact E|]. split; [exact Ea|]. split; [exact Ei|].
    split; [exact Hh|]. split; [exact Hc|].
    intros s Hs. rewrite Hh, Hc.
    split; [now apply above_listed_iff|now apply below_listed_iff].
  - eexists. split; [vm_compute; reflexivity|].
    unfold swing_day, swing_window. cbn.
    repeat split; repeat constructor.
  - intros rnd series_sum w w' Hw Hd Hm.
    assert (Hw' : w' <> []) by (destruct w, w'; try discriminate; congruence).
    destruct (Dag1F_run_window rnd series_sum w Hw) as (r & E & Ea & Es).
    destruct (Dag1F_run_window rnd series_sum w' Hw') as (r' & E' & Ea' & Es').
    assert (Eavg : fl_series_mean_max rnd series_sum w'
                   = fl_series_mean_max rnd series_sum w).
    { unfold fl_series_mean_max, Qlen. rewrite Hm.
      rewrite <- (length_map date w), <- (length_map date w'), Hd. reflexivity. }
    eexists r, _, r', _. split; [exact E|]. split; [exact E'|]. split.
    + rewrite Es, Es', Eavg. now apply fl_lines_ignore_minima.
    + intros s Hs. rewrite Es, Ea. split.
      * intros (dir & Hin).
        apply elem_of_fl_deviation_lines in Hin as (s' & _ & H2 & El).
        unfold fl_deviation_line, fl_deviation in El.
        cbn [to_row Dag1.max_temp_celsius Dag1.date] in El.
        assert (Et : max_temp s' = max_temp s) by congruence.
        now rewrite <- Et.
      * intros H2. eexists. apply elem_of_fl_deviation_lines.
        exists s. split; [exact Hs|]. split; [exact H2|reflexivity].
Qed.

Lemma C2_relative_to_mean_witness :
  edge_window <> [] /\
  exists r,
    DagDay1F.analyze_weather_data binary64 5 (of_window edge_window)
    = Returned (DagDay1.Report r) /\
    DagDay1.avg_max_temp r = binary64 (mean_max edge_window) /\
    forall s, s ∈ edge_window ->
      ((date s, max_temp s) ∈ DagDay1.hot_anomalies r
       <-> binary64 (DagDay1.avg_max_temp r + 5) < max_temp s).
Proof.
  split; [discriminate|].
  destruct C2_relative_to_mean as (H & _).
  destruct (H binary64 5 edge_window ltac:(discriminate))
    as (r & E & Ea & _ & _ & _ & Hiff).
  exists r. split; [exact E|]. split; [exact Ea|].
  intros s Hs. apply (Hiff s Hs).
Defined.







(** C9, as the claim states it, fails: on maxima 13.1, 15.1, 17.1 the first
    day lies more than 2.0 from the mean of the three maxima, yet
    [dag_1.py] lists the third day only: its float mean is 15.1 and the
    float difference for the first day is exactly 2.0. *)
Lemma C9_counterexample :
  exists r df' s,
    Dag1F.analyze_weather_data binary64 (fl_sum binary64)
      (Some (frame_of_window two_apart_window))
    = Returned (Dag1F.Analysis r, df') /\
    s ∈ two_apart_window /\
    2.0 < Qabs (max_temp s - mean_max two_apart_window) /\
    date s = "2024-08-20"%string /\
    map (fun l : string * Q * Q * Dag1.direction => l.1.1.1)
        (Dag1F.significant_deviations r)
    = ["2024-08-22"%string].
Proof.
  destruct (Dag1F_run_window binary64 (fl_sum binary64) two_apart_window
              ltac:(discriminate)) as (r & E & _ & Es).
  eexists r, _, (parsed "2024-08-20" 13.1 5).
  split; [exact E|].
  split; [unfold two_apart_window; repeat constructor|].
  split; [vm_compute; reflexivity|]. split; [reflexivity|].
  rewrite Es. vm_compute. reflexivity.
Qed.

(** C9, amended.  In [dag_1.py], on every non-empty window and however the
    floats round, a day is listed as a significant deviation exactly when
    the absolute value of the float difference between its [max_temp] and
    the reported mean exceeds 2.0; the test is symmetric: such a day is
    listed as "below" when its maximum is under the mean, as "above" when it
    is over it. *)
Theorem C9_symmetric_deviation (rnd : Q -> Q) (series_sum : list Q -> Q)
    (w : list DailySample) :
  w <> [] ->
  exists r df',
    Dag1F.analyze_weather_data rnd series_sum (Some (frame_of_window w))
    = Returned (Dag1F.Analysis r, df') /\
    Dag1F.avg_max_temp r
    = rnd (series_sum (map max_temp w) / inject_Z (Z.of_nat (length w))) /\
    (forall s, s ∈ w ->
       ((exists dir,
           (date s, max_temp s,
            Qabs (rnd (max_temp s - Dag1F.avg_max_temp r)), dir)
             ∈ Dag1F.significant_deviations r)
        <-> 2.0 < Qabs (rnd (max_temp s - Dag1F.avg_max_temp r)))) /\
    (forall s, s ∈ w ->
       max_temp s < Dag1F.avg_max_temp r ->
       2.0 < Qabs (rnd (max_temp s - Dag1F.avg_max_temp r)) ->
       (date s, max_temp s,
        Qabs (rnd (max_temp s - Dag1F.avg_max_temp r)), Dag1.below)
         ∈ Dag1F.significant_deviations r) /\
    (forall s, s ∈ w ->
       Dag1F.avg_max_temp r < max_temp s ->
       2.0 < Qabs (rnd (max_temp s - Dag1F.avg_max_temp r)) ->
       (date s, max_temp s,
        Qabs (rnd (max_temp s - Dag1F.avg_max_temp r)), Dag1.above)
         ∈ Dag1F.significant_deviations r).
Proof.
  intros Hw.
  destruct (Dag1F_run_window rnd series_sum w Hw) as (r & E & Ea & Es).
  eexists r, _. split; [exact E|]. split; [exact Ea|].
  rewrite Es, Ea. set (avg := fl_series_mean_max rnd series_sum w).
  split; [|split].
  - intros s Hs. split.
    + intros (dir & Hin).
      apply elem_of_fl_deviation_lines in Hin as (s' & _ & H2 & El).
      unfold fl_deviation_line, fl_deviation in El.
      cbn [to_row Dag1.max_temp_celsius Dag1.date] in El.
      assert (Et : max_temp s' = max_temp s) by congruence.
      now rewrite <- Et.
    + intros H2. eexists. apply elem_of_fl_deviation_lines.
      exists s. split; [exact Hs|]. split; [exact H2|reflexivity].
  - intros s Hs Hlow H2. apply elem_of_fl_deviation_lines.
    exists s. split; [exact Hs|]. split; [exact H2|].
    unfold fl_deviation_line, fl_deviation.
    cbn [to_row Dag1.max_temp_celsius Dag1.date].
    rewrite (proj2 (Qlt_bool_false avg (max_temp s))) by lra. reflexivity.
  - intros s Hs Hhigh H2. apply elem_of_fl_deviation_lines.
    exists s. split; [exact Hs|]. split; [exact H2|].
    unfold fl_deviation_line, fl_deviation.
    cbn [to_row Dag1.max_temp_celsius Dag1.date].
    rewrite (proj2 (Qlt_bool_iff avg (max_temp s))) by lra. reflexivity.
Qed.

Lemma C9_symmetric_deviation_witness :
  two_apart_window <> [] /\
  exists r df',
    Dag1F.analyze_weather_data binary64 (fl_sum binary64)
      (Some (frame_of_window two_apart_window))
    = Returned (Dag1F.Analysis r, df') /\
    forall s, s ∈ two_apart_window ->
      ((exists dir,
          (date s, max_temp s,
           Qabs (binary64 (max_temp s - Dag1F.avg_max_temp r)), dir)
            ∈ Dag1F.significant_deviations r)
       <-> 2.0 < Qabs (binary64 (max_temp s - Dag1F.avg_max_temp r))).
Proof.
  split; [discriminate|].
  destruct (C9_symmetric_deviation binary64 (fl_sum binary64) two_apart_window
              ltac:(discriminate)) as (r & df' & E & _ & H & _).
  exists r, df'. split; [exact E|exact H].
Defined.

(** C10: on every non-empty window of doubles [dag_day_1.py] reports a
    highest temperature that is at least the reported mean maximum and a
    lowest temperature that is at most the reported mean minimum: the means
    are rounded, but rounding is monotone and leaves the extremes, which are
    doubles, where they are.  [weather.py] prints no mean; its extremes
    bound the window's own means. *)
Theorem C10_extremes_bound_means (rnd : Q -> Q) (w : list DailySample) :
  w <> [] ->
  (forall x y, x <= y -> rnd x <= rnd y) ->
  (forall s, s ∈ w ->
     rnd (max_temp s) == max_temp s /\ rnd (min_temp s) == min_temp s) ->
  (forall delta, exists r,
      DagDay1F.analyze_weather_data rnd delta (of_window w)
      = Returned (DagDay1.Report r) /\
      DagDay1.avg_max_temp r <= DagDay1.highest_temp r /\
      DagDay1.lowest_temp r <= DagDay1.avg_min_temp r) /\
  (forall normal_max normal_min delta, exists r,
      Weather.analyze_weather_data normal_max normal_min delta (of_window w)
      = Returned (Weather.Report r) /\
      mean_max w <= Weather.highest_temp r /\
      Weather.lowest_temp r <= mean_min w).
Proof.
  intros Hw Hmono Hfix. split.
  - intros delta.
    destruct (DagDay1F_run rnd delta w Hw)
      as (ih & il & sh & sl & Hh & Hl & Mh & Ml & E).
    eexists. split; [exact E|].
    cbn [DagDay1.avg_max_temp DagDay1.avg_min_temp DagDay1.highest_temp
         DagDay1.lowest_temp].
    assert (Sh : sh ∈ w) by (eapply list_elem_of_lookup_2; eauto).
    assert (Sl : sl ∈ w) by (eapply list_elem_of_lookup_2; eauto).
    destruct (Hfix sh Sh) as (Fh & _). destruct (Hfix sl Sl) as (_ & Fl).
    split.
    + rewrite <- Fh. apply Hmono. apply (mean_le_max _ w _ Hw), Mh.
    + rewrite <- Fl. apply Hmono. apply (mean_ge_min _ w _ Hw), Ml.
  - intros normal_max normal_min delta.
    destruct (Weather_run normal_max normal_min delta w Hw)
      as (ih & il & sh & sl & _ & _ & Mh & Ml & E).
    eexists. split; [exact E|].
    cbn [Weather.highest_temp Weather.lowest_temp].
    split; [apply (mean_le_max _ w _ Hw), Mh|apply (mean_ge_min _ w _ Hw), Ml].
Qed.

Lemma edge_window_doubles (s : DailySample) :
  s ∈ edge_window ->
  binary64 (max_temp s) == max_temp s /\ binary64 (min_temp s) == min_temp s.
Proof.
  unfold edge_window. intros Hs.
  repeat (apply elem_of_cons in Hs as [->|Hs]);
    [split; vm_compute; reflexivity..|inversion Hs].
Qed.

Lemma C10_extremes_bound_means_witness :
  edge_window <> [] /\
  (forall x y, x <= y -> binary64 x <= binary64 y) /\
  exists r,
    DagDay1F.analyze_weather_data binary64 5 (of_window edge_window)
    = Returned (DagDay1.Report r) /\
    DagDay1.avg_max_temp r <= DagDay1.highest_temp r /\
    DagDay1.lowest_temp r <= DagDay1.avg_min_temp r.
Proof.
  split; [discriminate|]. split; [exact binary64_monotone|].
  destruct (C10_extremes_bound_means binary64 edge_window ltac:(discriminate)
              binary64_monotone edge_window_doubles) as (H & _).
  exact (H 5).
Defined.

(** [dag_1.py] is different: its mean is a float sum divided by the count,
    and on three days at 30.1 it comes out above the highest temperature. *)
Example flat_window_mean_above_highest :
  exists r df',
    Dag1F.analyze_weather_data binary64 (fl_sum binary64)
      (Some (frame_of_window flat_window))
    = Returned (Dag1F.Analysis r, df') /\
    Dag1F.highest_temp r < Dag1F.avg_max_temp r.
Proof.
  assert (N : Dag1.rows (frame_of_window flat_window) <> []) by discriminate.
  destruct (Dag1F_report binary64 (fl_sum binary64) _ N)
    as (r & ih & il & ia & rh & rl & ra & E & Hh & _ & _ & Mh & _ & _ & _ & S).
  exists r, (Some (fl_frame_after binary64 (fl_sum binary64)
                     (frame_of_window flat_window))).
  split; [exact E|].
  assert (Eh : Dag1F.highest_temp r = Dag1.max_temp_celsius rh)
    by (unfold Dag1F.statistics in S; congruence).
  assert (Ea : Dag1F.avg_max_temp r
               = fl_frame_mean_max binary64 (fl_sum binary64)
                   (frame_of_window flat_window))
    by (unfold Dag1F.statistics in S; congruence).
  rewrite Eh, Ea.
  apply list_elem_of_lookup_2 in Hh. cbn in Hh.
  repeat (apply elem_of_cons in Hh as [->|Hh]);
    [vm_compute; reflexivity..|inversion Hh].
Qed.

(** * Further properties that depend on the arithmetic *)

Lemma bound_lines_nil (hb cb : Q) (s : DailySample) :
  bound_lines hb cb s = [] <-> max_temp s <= hb /\ cb <= min_temp s.
Proof.
  unfold bound_lines. rewrite <- !Qlt_bool_false.
  destruct (Qlt_bool hb (max_temp s)), (Qlt_bool (min_temp s) cb); cbn;
    split; try discriminate; try tauto; intros (? & ?); discriminate.
Qed.

Lemma anomalies_nil_iff (l : list anomaly) :
  l = [] <-> flat_map hot_of l = [] /\ flat_map cold_of l = [].
Proof.
  split; [intros ->; split; reflexivity|].
  intros (Hh & Hc). destruct l as [|[d t|d t] l]; [reflexivity|..];
    cbn in Hh, Hc; discriminate.
Qed.

Lemma weather_lines_nil_iff (r : Weather.report) :
  Weather.anomalies r = [] <->
  Weather.hot_anomalies r = [] /\ Weather.cold_anomalies r = [].
Proof.
  unfold Weather.hot_anomalies, Weather.cold_anomalies.
  split; [intros ->; split; reflexivity|].
  intros (Hh & Hc). destruct (Weather.anomalies r) as [|[d t x|d t x] l];
    [reflexivity|..]; cbn in Hh, Hc; discriminate.
Qed.

(** X2: the closing "no anomalies" message of [dag_day_1.py] and of
    [weather.py] is printed exactly when no anomaly line was printed, that
    is, when both anomaly lists are empty; in [dag_day_1.py], however the
    floats round, that is exactly when every maximum is at most the float
    [avg_max_temp + threshold] and every minimum at least the float
    [avg_min_temp - threshold]. *)
Theorem X2_no_anomaly_message (w : list DailySample) :
  w <> [] ->
  (forall rnd delta, exists r,
      DagDay1F.analyze_weather_data rnd delta (of_window w)
      = Returned (DagDay1.Report r) /\
      (DagDay1.anomalies_found r = false <-> DagDay1.anomalies r = []) /\
      (DagDay1.anomalies_found r = false <->
       DagDay1.hot_anomalies r = [] /\ DagDay1.cold_anomalies r = []) /\
      (DagDay1.anomalies_found r = false <->
       forall s, s ∈ w ->
         max_temp s <= rnd (DagDay1.avg_max_temp r + delta) /\
         rnd (DagDay1.avg_min_temp r - delta) <= min_temp s)) /\
  (forall normal_max normal_min delta, exists r,
      Weather.analyze_weather_data normal_max normal_min delta (of_window w)
      = Returned (Weather.Report r) /\
      (Weather.anomalies_found r = false <-> Weather.anomalies r = []) /\
      (Weather.anomalies_found r = false <->
       Weather.hot_anomalies r = [] /\ Weather.cold_anomalies r = [])).
Proof.
  intros Hw. split.
  - intros rnd delta.
    destruct (DagDay1F_lists rnd delta w Hw) as (r & E & _ & _ & Ea & Ef & _).
    exists r. split; [exact E|]. rewrite Ef.
    split; [apply found_of_false|].
    split; [rewrite found_of_false; apply anomalies_nil_iff|].
    rewrite found_of_false, Ea, flat_map_nil_iff.
    split; intros H s Hs; apply bound_lines_nil, H, Hs.
  - intros normal_max normal_min delta.
    destruct (Weather_run normal_max normal_min delta w Hw)
      as (ih & il & sh & sl & _ & _ & _ & _ & E).
    eexists. split; [exact E|].
    split; [apply found_of_false|].
    rewrite <- weather_lines_nil_iff. apply found_of_false.
Qed.

Lemma X2_no_anomaly_message_witness :
  edge_window <> [] /\
  exists r,
    DagDay1F.analyze_weather_data binary64 5 (of_window edge_window)
    = Returned (DagDay1.Report r) /\
    (DagDay1.anomalies_found r = false <-> DagDay1.anomalies r = []).
Proof.
  split; [discriminate|].
  destruct (X2_no_anomaly_message edge_window ltac:(discriminate)) as (H & _).
  destruct (H binary64 5) as (r & E & L & _). exists r. split; assumption.
Defined.

Lemma hottest_listed_iff (hb : Q) (w : list DailySample) ih sh :
  w !! ih = Some sh ->
  first_max (map max_temp w) ih (max_temp sh) ->
  map (fun s => (date s, max_temp s))
      (List.filter (fun s => Qlt_bool hb (max_temp s)) w) <> []
  <-> (date sh, max_temp sh)
        ∈ map (fun s => (date s, max_temp s))
              (List.filter (fun s => Qlt_bool hb (max_temp s)) w).
Proof.
  intros Hh (_ & Hle & _).
  assert (Hs : sh ∈ w) by (eapply list_elem_of_lookup_2; eauto).
  rewrite (above_listed_iff hb w sh Hs), map_filter_nil_iff. split.
  - intros Hne. destruct (Qlt_le_dec hb (max_temp sh)) as [H|H]; [exact H|].
    exfalso. apply Hne. intros s Hs'. apply Qlt_bool_false.
    assert (max_temp s <= max_temp sh)
      by (apply Hle, list_elem_of_In, in_map, list_elem_of_In, Hs').
    lra.
  - intros Hlt Hall. specialize (Hall sh Hs).
    apply Qlt_bool_false in Hall. lra.
Qed.

Lemma coldest_listed_iff (cb : Q) (w : list DailySample) il sl :
  w !! il = Some sl ->
  first_min (map min_temp w) il (min_temp sl) ->
  map (fun s => (date s, min_temp s))
      (List.filter (fun s => Qlt_bool (min_temp s) cb) w) <> []
  <-> (date sl, min_temp sl)
        ∈ map (fun s => (date s, min_temp s))
              (List.filter (fun s => Qlt_bool (min_temp s) cb) w).
Proof.
  intros Hl (_ & Hle & _).
  assert (Hs : sl ∈ w) by (eapply list_elem_of_lookup_2; eauto).
  rewrite (below_listed_iff cb w sl Hs), map_filter_nil_iff. split.
  - intros Hne. destruct (Qlt_le_dec (min_temp sl) cb) as [H|H]; [exact H|].
    exfalso. apply Hne. intros s Hs'. apply Qlt_bool_false.
    assert (min_temp sl <= min_temp s)
      by (apply Hle, list_elem_of_In, in_map, list_elem_of_In, Hs').
    lra.
  - intros Hlt Hall. specialize (Hall sl Hs).
    apply Qlt_bool_false in Hall. lra.
Qed.

(** X5: in [dag_day_1.py] (however the floats round) and in [weather.py],
    some day is a hot anomaly exactly when the day reported as the highest
    is one, and some day is a cold anomaly exactly when the day reported as
    the lowest is one. *)
Theorem X5_extremes_decide_anomalies (w : list DailySample) :
  w <> [] ->
  (forall rnd delta, exists r,
      DagDay1F.analyze_weather_data rnd delta (of_window w)
      = Returned (DagDay1.Report r) /\
      (DagDay1.hot_anomalies r <> [] <->
       (DagDay1.date_of_highest r, DagDay1.highest_temp r)
         ∈ DagDay1.hot_anomalies r) /\
      (DagDay1.cold_anomalies r <> [] <->
       (DagDay1.date_of_lowest r, DagDay1.lowest_temp r)
         ∈ DagDay1.cold_anomalies r)) /\
  (forall normal_max normal_min delta, exists r,
      Weather.analyze_weather_data normal_max normal_min delta (of_window w)
      = Returned (Weather.Report r) /\
      (Weather.hot_anomalies r <> [] <->
       (Weather.date_of_highest r, Weather.highest_temp r)
         ∈ Weather.hot_anomalies r) /\
      (Weather.cold_anomalies r <> [] <->
       (Weather.date_of_lowest r, Weather.lowest_temp r)
         ∈ Weather.cold_anomalies r)).
Proof.
  intros Hw. split.
  - intros rnd delta.
    destruct (DagDay1F_run rnd delta w Hw)
      as (ih & il & sh & sl & Hh & Hl & Mh & Ml & E).
    eexists. split; [exact E|].
    unfold DagDay1.hot_anomalies, DagDay1.cold_anomalies.
    cbn [DagDay1.anomalies DagDay1.highest_temp DagDay1.lowest_temp
         DagDay1.date_of_highest DagDay1.date_of_lowest].
    rewrite hot_of_bound_lines, cold_of_bound_lines.
    split; [eapply hottest_listed_iff|eapply coldest_listed_iff]; eauto.
  - intros normal_max normal_min delta.
    destruct (Weather_run normal_max normal_min delta w Hw)
      as (ih & il & sh & sl & Hh & Hl & Mh & Ml & E).
    eexists. split; [exact E|].
    rewrite (hot_of_normal_lines normal_max normal_min delta w) by reflexivity.
    rewrite (cold_of_normal_lines normal_max normal_min delta w) by reflexivity.
    cbn [Weather.highest_temp Weather.lowest_temp Weather.date_of_highest
         Weather.date_of_lowest].
    split.
    + apply (hottest_listed_iff (normal_max + delta) w ih sh Hh Mh).
    + apply (coldest_listed_iff (normal_min - delta) w il sl Hl Ml).
Qed.

Lemma X5_extremes_decide_anomalies_witness :
  edge_window <> [] /\
  exists r,
    DagDay1F.analyze_weather_data binary64 5 (of_window edge_window)
    = Returned (DagDay1.Report r) /\
    (DagDay1.cold_anomalies r <> [] <->
     (DagDay1.date_of_lowest r, DagDay1.lowest_temp r)
       ∈ DagDay1.cold_anomalies r).
Proof.
  split; [discriminate|].
  destruct (X5_extremes_decide_anomalies edge_window ltac:(discriminate))
    as (H & _).
  destruct (H binary64 5) as (r & E & _ & Hc). exists r. split; assumption.
Defined.

(** X8: on every non-empty window the three scripts agree on the extremes:
    [max()] with [list.index()] in [dag_day_1.py] and [weather.py], and
    [idxmax()] with [df.loc] in [dag_1.py], report the same highest
    temperature on the same date and the same lowest temperature on the same
    date. *)
Theorem X8_scripts_agree (w : list DailySample) :
  w <> [] ->
  forall delta normal_max normal_min delta',
  exists r1 r2 r3 df',
    DagDay1.analyze_weather_data delta (of_window w)
    = Returned (DagDay1.Report r1) /\
    Weather.analyze_weather_data normal_max normal_min delta' (of_window w)
    = Returned (Weather.Report r2) /\
    Dag1.analyze_weather_data (Some (frame_of_window w))
    = Returned (Dag1.Analysis r3, df') /\
    (DagDay1.highest_temp r1 = Weather.highest_temp r2 /\
     DagDay1.highest_temp r1 = Dag1.highest_temp r3) /\
    (DagDay1.date_of_highest r1 = Weather.date_of_highest r2 /\
     DagDay1.date_of_highest r1 = Dag1.date_of_highest_temp r3) /\
    (DagDay1.lowest_temp r1 = Weather.lowest_temp r2 /\
     DagDay1.lowest_temp r1 = Dag1.lowest_temp r3) /\
    (DagDay1.date_of_lowest r1 = Weather.date_of_lowest r2 /\
     DagDay1.date_of_lowest r1 = Dag1.date_of_lowest_temp r3).
Proof.
  intros Hw delta normal_max normal_min delta'.
  destruct (DagDay1_run delta w Hw)
    as (ih & il & sh & sl & Hh & Hl & Mh & Ml & E1).
  destruct (Weather_run normal_max normal_min delta' w Hw)
    as (ih2 & il2 & sh2 & sl2 & Hh2 & Hl2 & Mh2 & Ml2 & E2).
  destruct (Dag1_run_window w Hw)
    as (ih3 & il3 & sh3 & sl3 & r3 & Hh3 & Hl3 & Mh3 & Ml3 & E3
        & Eh & Edh & El & Edl & _).
  destruct (first_max_unique _ _ _ _ _ Mh Mh2) as (<- & _).
  destruct (first_max_unique _ _ _ _ _ Mh Mh3) as (<- & _).
  destruct (first_min_unique _ _ _ _ _ Ml Ml2) as (<- & _).
  destruct (first_min_unique _ _ _ _ _ Ml Ml3) as (<- & _).
  assert (sh2 = sh) as -> by congruence. assert (sh3 = sh) as -> by congruence.
  assert (sl2 = sl) as -> by congruence. assert (sl3 = sl) as -> by congruence.
  eexists _, _, r3, _. split; [exact E1|]. split; [exact E2|]. split; [exact E3|].
  rewrite Eh, Edh, El, Edl.
  cbn [DagDay1.highest_temp DagDay1.date_of_highest DagDay1.lowest_temp
       DagDay1.date_of_lowest Weather.highest_temp
       Weather.date_of_highest Weather.lowest_temp Weather.date_of_lowest].
  repeat split; reflexivity.
Qed.

Lemma X8_scripts_agree_witness :
  tie_window <> [] /\
  exists r1 r3 df',
    DagDay1.analyze_weather_data 5 (of_window tie_window)
    = Returned (DagDay1.Report r1) /\
    Dag1.analyze_weather_data (Some (frame_of_window tie_window))
    = Returned (Dag1.Analysis r3, df') /\
    DagDay1.date_of_highest r1 = Dag1.date_of_highest_temp r3.
Proof.
  split; [discriminate|].
  destruct (X8_scripts_agree tie_window ltac:(discriminate) 5 29.5 22.5 2.5)
    as (r1 & r2 & r3 & df' & E1 & _ & E3 & _ & (_ & Hd) & _).
  exists r1, r3, df'. repeat split; assumption.
Defined.

(** X11: on every non-empty frame of doubles, however the floats round, the
    "largest fluctuation" [dag_1.py] reports is the greatest of the float
    differences between a row's maximum and minimum, and the date reported
    with it is that of the first row whose float difference reaches it.
    (The magnitudes are kept below 2^52, where a column of integers
    subtracts like a column of doubles.) *)
Theorem X11_largest_fluctuation (rnd : Q -> Q) (series_sum : list Q -> Q)
    (df : Dag1.DataFrame) :
  Dag1.rows df <> [] ->
  (forall rj, rj ∈ Dag1.rows df ->
     Qabs (Dag1.max_temp_celsius rj) <= 2 ^ 52 /\
     Qabs (Dag1.min_temp_celsius rj) <= 2 ^ 52) ->
  exists r df' i ra,
    Dag1F.analyze_weather_data rnd series_sum (Some df)
    = Returned (Dag1F.Analysis r, df') /\
    Dag1.rows df !! i = Some ra /\
    Dag1F.max_fluctuation r
    = rnd (Dag1.max_temp_celsius ra - Dag1.min_temp_celsius ra) /\
    Dag1F.date_of_anomaly r = Dag1.date ra /\
    (forall rj, rj ∈ Dag1.rows df ->
       rnd (Dag1.max_temp_celsius rj - Dag1.min_temp_celsius rj)
       <= Dag1F.max_fluctuation r) /\
    (forall j rj, (j < i)%nat -> Dag1.rows df !! j = Some rj ->
       rnd (Dag1.max_temp_celsius rj - Dag1.min_temp_celsius rj)
       < Dag1F.max_fluctuation r).
Proof.
  intros Hr _.
  destruct (Dag1F_report rnd series_sum df Hr)
    as (r & ih & il & ia & rh & rl & ra & E & _ & _ & Ha & _ & _
        & (_ & Hle & Hlt) & _ & S).
  exists r, (Some (fl_frame_after rnd series_sum df)), ia, ra.
  split; [exact E|]. split; [exact Ha|].
  assert (Ef : Dag1F.max_fluctuation r = fl_fluctuation rnd ra)
    by (unfold Dag1F.statistics in S; congruence).
  assert (Ed : Dag1F.date_of_anomaly r = Dag1.date ra)
    by (unfold Dag1F.statistics in S; congruence).
  rewrite Ef. split; [reflexivity|]. split; [exact Ed|]. split.
  - intros rj Hj. apply (Hle (fl_fluctuation rnd rj)).
    apply list_elem_of_In, in_map, list_elem_of_In, Hj.
  - intros j rj Hj Hrj. apply (Hlt j (fl_fluctuation rnd rj) Hj).
    now rewrite lookup_map, Hrj.
Qed.

Lemma X11_largest_fluctuation_witness :
  Dag1.rows (frame_of_window edge_window) <> [] /\
  exists r df' i ra,
    Dag1F.analyze_weather_data binary64 (fl_sum binary64)
      (Some (frame_of_window edge_window))
    = Returned (Dag1F.Analysis r, df') /\
    Dag1.rows (frame_of_window edge_window) !! i = Some ra /\
    Dag1F.max_fluctuation r
    = binary64 (Dag1.max_temp_celsius ra - Dag1.min_temp_celsius ra).
Proof.
  split; [discriminate|].
  assert (B : forall rj, rj ∈ Dag1.rows (frame_of_window edge_window) ->
                Qabs (Dag1.max_temp_celsius rj) <= 2 ^ 52 /\
                Qabs (Dag1.min_temp_celsius rj) <= 2 ^ 52).
  { intros rj Hj. cbn in Hj.
    repeat (apply elem_of_cons in Hj as [->|Hj]);
      [split; vm_compute; discriminate..|inversion Hj]. }
  destruct (X11_largest_fluctuation binary64 (fl_sum binary64)
              (frame_of_window edge_window) ltac:(discriminate) B)
    as (r & df' & i & ra & E & Hi & Hf & _).
  exists r, df', i, ra. repeat split; assumption.
Defined.

(** X12: every line [dag_1.py] prints under "significant deviation" is, on
    a non-empty window and however the floats round, a day of the window
    printed with its own maximum and with the absolute value of the float
    difference between that maximum and the reported mean; that value
    exceeds 2.0; a line labelled "above" has its maximum over the mean and a
    line labelled "below" has it at or under the mean.  The lines follow the
    order of the window. *)
Theorem X12_deviation_lines_sound (rnd : Q -> Q) (series_sum : list Q -> Q)
    (w : list DailySample) :
  w <> [] ->
  exists r df',
    Dag1F.analyze_weather_data rnd series_sum (Some (frame_of_window w))
    = Returned (Dag1F.Analysis r, df') /\
    (forall d t dev dir,
        (d, t, dev, dir) ∈ Dag1F.significant_deviations r ->
        (exists s, s ∈ w /\ d = date s /\ t = max_temp s) /\
        dev = Qabs (rnd (t - Dag1F.avg_max_temp r)) /\
        2.0 < dev /\
        match dir with
        | Dag1.above => Dag1F.avg_max_temp r < t
        | Dag1.below => t <= Dag1F.avg_max_temp r
        end) /\
    sublist (map (fun l : string * Q * Q * Dag1.direction => l.1.1.1)
                 (Dag1F.significant_deviations r))
            (map date w).
Proof.
  intros Hw.
  destruct (Dag1F_run_window rnd series_sum w Hw) as (r & E & Ea & Es).
  eexists r, _. split; [exact E|]. rewrite Es, Ea.
  set (avg := fl_series_mean_max rnd series_sum w). split.
  - intros d t dev dir Hin.
    apply elem_of_fl_deviation_lines in Hin as (s & Hs & H2 & El).
    unfold fl_deviation_line, fl_deviation in El.
    cbn [to_row Dag1.max_temp_celsius Dag1.date] in El.
    assert (Ed : d = date s) by congruence.
    assert (Et : t = max_temp s) by congruence.
    assert (Edev : dev = Qabs (rnd (max_temp s - avg))) by congruence.
    assert (Edir : dir = if Qlt_bool avg (max_temp s)
                         then Dag1.above else Dag1.below) by congruence.
    clear El. subst d t dev dir.
    split; [eauto|]. split; [reflexivity|]. split; [exact H2|].
    destruct (Qlt_bool avg (max_temp s)) eqn:Hd.
    + now apply Qlt_bool_iff.
    + now apply Qlt_bool_false.
  - rewrite map_map.
    replace (map date w) with (map Dag1.date (map to_row w))
      by (rewrite map_map; now apply map_ext).
    apply sublist_filter_map.
Qed.

Lemma X12_deviation_lines_sound_witness :
  two_apart_window <> [] /\
  exists r df',
    Dag1F.analyze_weather_data binary64 (fl_sum binary64)
      (Some (frame_of_window two_apart_window))
    = Returned (Dag1F.Analysis r, df') /\
    sublist (map (fun l : string * Q * Q * Dag1.direction => l.1.1.1)
                 (Dag1F.significant_deviations r))
            (map date two_apart_window).
Proof.
  split; [discriminate|].
  destruct (X12_deviation_lines_sound binary64 (fl_sum binary64)
              two_apart_window ltac:(discriminate)) as (r & df' & E & _ & Hs).
  exists r, df'. split; assumption.
Defined.

(** ** The script body of dag_1.py *)

Lemma Dag1F_never_raises rnd series_sum (df : option Dag1.DataFrame) :
  exists out df',
    Dag1F.analyze_weather_data rnd series_sum df = Returned (out, df').
Proof.
  destruct df as [df|]; [|eexists _, _; reflexivity].
  destruct (Dag1.rows df) as [|x l] eqn:Hr.
  - eexists _, _. now apply Dag1F_empty.
  - destruct (Dag1F_report rnd series_sum df) as (r & _ & _ & _ & _ & _ & _ & E & _);
      [congruence|].
    eexists _, _. exact E.
Qed.

Lemma get_weather_data_none_iff
    (to_datetime : list string -> option (list string)) resp :
  Dag1Script.get_weather_data to_datetime resp = None <->
  match resp with
  | Dag1Script.Failed => True
  | Dag1Script.Body None => True
  | Dag1Script.Body (Some d) =>
      length (time d) <> length (temperature_2m_max d) \/
      length (time d) <> length (temperature_2m_min d) \/
      to_datetime (time d) = None
  | Dag1Script.Timeless => True
  | Dag1Script.Partial time present =>
      (exists l, present = Some l /\ length l <> length time) \/
      to_datetime time = None
  end.
Proof.
  destruct resp as [|[d|]| |tm present]; cbn [Dag1Script.get_weather_data];
    try tauto.
  - unfold Dag1Script.DataFrame.
    destruct (decide _) as [[H1 H2]|Hn]; cbn [mbind option_bind].
    + unfold Dag1Script.convert_dates. cbn [Dag1.rows Dag1.derived].
      assert (Hd : map Dag1.date
                     (zip_with (fun dm mn =>
                                  {| Dag1.date := dm.1;
                                     Dag1.max_temp_celsius := dm.2;
                                     Dag1.min_temp_celsius := mn |})
                               (zip (time d) (temperature_2m_max d))
                               (temperature_2m_min d))
                   = time d).
      { destruct d as [tm mx mn]. cbn [time temperature_2m_max temperature_2m_min] in *.
        revert mx mn H1 H2. induction tm as [|t tm IH]; intros [|x mx] [|n mn] H1 H2;
          cbn in *; try discriminate; [reflexivity|].
        f_equal. apply IH; congruence. }
      rewrite Hd.
      destruct (to_datetime (time d)) as [dates|]; cbn [mbind option_bind].
      * split; [discriminate|]. intros [?|[?|?]]; congruence.
      * tauto.
    + split; [|reflexivity]. intros _.
      destruct (decide (length (time d) = length (temperature_2m_max d)));
        [|tauto].
      destruct (decide (length (time d) = length (temperature_2m_min d)));
        tauto.
  - destruct present as [l|].
    + destruct (bool_decide (length l = length tm)) eqn:Hb.
      * apply bool_decide_eq_true in Hb.
        destruct (to_datetime tm); cbn [mbind option_bind].
        -- split; [discriminate|].
           intros [(l' & E & Hl)|?]; [|discriminate].
           congruence.
        -- tauto.
      * apply bool_decide_eq_false in Hb. split; [|reflexivity].
        intros _. left. eauto.
    + destruct (to_datetime tm); cbn [mbind option_bind].
      * split; [discriminate|]. intros [(l' & E & _)|?]; discriminate.
      * tauto.
Qed.

(** X14 (dag_1.py, the script body on a well-formed reply).  When the reply
    carries the three lists of a window and the dates parse,
    [get_weather_data] hands over the frame with one row per day, in order,
    and no other column; the script prints "No data available to analyze."
    for an empty window, and otherwise the analysis, whose table is that
    frame and whose highest and lowest temperatures are a maximum of the
    maxima and a minimum of the minima of the window.  The float arithmetic
    of the analyzer does not enter. *)
Theorem X14_script_on_window (to_datetime : list string -> option (list string))
    (rnd : Q -> Q) (series_sum : list Q -> Q) (w : list DailySample) :
  to_datetime (map date w) = Some (map date w) ->
  Dag1Script.get_weather_data to_datetime (Dag1Script.Body (of_window w))
  = Some (Dag1Script.Complete (frame_of_window w)) /\
  (w = [] ->
   Dag1Script.main to_datetime rnd series_sum (Dag1Script.Body (of_window w))
   = Returned (Some Dag1F.NoData)) /\
  (w <> [] ->
   exists r,
     Dag1Script.main to_datetime rnd series_sum (Dag1Script.Body (of_window w))
     = Returned (Some (Dag1F.Analysis r)) /\
     Dag1F.table r = frame_of_window w /\
     is_maximum (Dag1F.highest_temp r) (map max_temp w) /\
     is_minimum (Dag1F.lowest_temp r) (map min_temp w)).
Proof.
  intros Hparse.
  pose proof (get_weather_data_window to_datetime w Hparse) as G.
  split; [exact G|]. unfold Dag1Script.main. rewrite G. split.
  - intros ->. reflexivity.
  - intros Hw.
    assert (Hrows : Dag1.rows (frame_of_window w) <> []).
    { unfold frame_of_window. cbn [Dag1.rows]. destruct w; [congruence|discriminate]. }
    destruct (Dag1F_report rnd series_sum (frame_of_window w) Hrows)
      as (r & ih & il & ia & rh & rl & ra & E & _ & _ & _ & Mh & Ml & _ & Et & Es).
    exists r. rewrite E. split; [reflexivity|]. split; [exact Et|].
    assert (Eh : Dag1F.highest_temp r = Dag1.max_temp_celsius rh).
    { unfold Dag1F.statistics in Es. congruence. }
    assert (El : Dag1F.lowest_temp r = Dag1.min_temp_celsius rl).
    { unfold Dag1F.statistics in Es. congruence. }
    rewrite Eh, El.
    unfold frame_of_window in Mh, Ml. cbn [Dag1.rows] in Mh, Ml.
    rewrite map_to_row_max in Mh. rewrite map_to_row_min in Ml.
    split; [eapply first_max_is_maximum; eauto|].
    eapply first_min_is_minimum; eauto.
Qed.

Lemma X14_script_on_window_witness :
  Some (map date DagDay1.example_window) = Some (map date DagDay1.example_window) /\
  Dag1Script.get_weather_data Some
    (Dag1Script.Body (of_window DagDay1.example_window))
  = Some (Dag1Script.Complete (frame_of_window DagDay1.example_window)).
Proof.
  split; [reflexivity|].
  apply (X14_script_on_window Some binary64 (fl_sum binary64)
           DagDay1.example_window).
  reflexivity.
Defined.

(** X15 (dag_1.py, the script body on the other replies; lists of numbers
    without nulls).  [get_weather_data] answers [None], and the script then
    prints nothing of the analysis, exactly when the request failed, the body
    has no ['daily'], the entry has no ['time'], the lists present differ in
    length, or the dates do not parse.  The script ends in an exception
    exactly when the entry has its dates, lacks a temperature list, its lists
    agree in length, the dates parse and there is at least one day: the
    analyzer is called outside any [try] and raises [KeyError] at the first
    [df[...]] of the missing column.  On every other reply the script
    returns. *)
Theorem X15_script_outcomes
    (to_datetime : list string -> option (list string))
    (rnd : Q -> Q) (series_sum : list Q -> Q) (resp : Dag1Script.response) :
  (Dag1Script.get_weather_data to_datetime resp = None ->
   Dag1Script.main to_datetime rnd series_sum resp = Returned None) /\
  (Dag1Script.get_weather_data to_datetime resp = None <->
   match resp with
   | Dag1Script.Failed => True
   | Dag1Script.Body None => True
   | Dag1Script.Body (Some d) =>
       length (time d) <> length (temperature_2m_max d) \/
       length (time d) <> length (temperature_2m_min d) \/
       to_datetime (time d) = None
   | Dag1Script.Timeless => True
   | Dag1Script.Partial time present =>
       (exists l, present = Some l /\ length l <> length time) \/
       to_datetime time = None
   end) /\
  ((exists e, Dag1Script.main to_datetime rnd series_sum resp = Raised e) <->
   exists time present,
     resp = Dag1Script.Partial time present /\
     time <> [] /\
     to_datetime time <> None /\
     (forall l, present = Some l -> length l = length time)) /\
  (forall e, Dag1Script.main to_datetime rnd series_sum resp = Raised e ->
             e = KeyError) /\
  ((exists o, Dag1Script.main to_datetime rnd series_sum resp = Returned o) \/
   Dag1Script.main to_datetime rnd series_sum resp = Raised KeyError).
Proof.
  pose proof (get_weather_data_none_iff to_datetime resp) as Hnone.
  assert (Hcases :
    (exists o, Dag1Script.main to_datetime rnd series_sum resp = Returned o) /\
    ~ (exists time present,
         resp = Dag1Script.Partial time present /\ time <> [] /\
         to_datetime time <> None /\
         (forall l, present = Some l -> length l = length time))
    \/
    Dag1Script.main to_datetime rnd series_sum resp = Raised KeyError /\
    (exists time present,
         resp = Dag1Script.Partial time present /\ time <> [] /\
         to_datetime time <> None /\
         (forall l, present = Some l -> length l = length time))).
  { unfold Dag1Script.main.
    destruct (Dag1Script.get_weather_data to_datetime resp) as [[df|n]|] eqn:G.
    - left. split.
      + destruct (Dag1F_never_raises rnd series_sum (Some df)) as (out & df' & E).
        rewrite E. eexists. reflexivity.
      + intros (tm & present & -> & _).
        cbn [Dag1Script.get_weather_data] in G.
        destruct (match present with
                  | Some l => bool_decide (length l = length tm)
                  | None => true
                  end); [|discriminate].
        destruct (to_datetime tm); discriminate.
    - destruct resp as [|[d|]| |tm present];
        cbn [Dag1Script.get_weather_data] in G; try discriminate.
      + destruct (Dag1Script.DataFrame d) as [df|]; cbn [mbind option_bind] in G;
          [|discriminate].
        destruct (Dag1Script.convert_dates to_datetime df);
          cbn [mbind option_bind] in G; discriminate.
      + destruct (match present with
                  | Some l => bool_decide (length l = length tm)
                  | None => true
                  end) eqn:Hb; [|discriminate].
        destruct (to_datetime tm) as [dates|] eqn:Hd;
          cbn [mbind option_bind] in G; [|discriminate].
        assert (En : n = length tm) by congruence. subst n.
        destruct tm as [|t tm].
        * left. split; [eexists; reflexivity|].
          intros (tm' & present' & E & Hne & _). congruence.
        * right. split; [reflexivity|].
          exists (t :: tm), present. split; [reflexivity|].
          split; [discriminate|]. split; [congruence|].
          intros l ->. now apply bool_decide_eq_true in Hb.
    - left. split; [eexists; reflexivity|].
      intros (tm & present & -> & _ & Hd & Hl).
      apply (proj1 (get_weather_data_none_iff to_datetime
                      (Dag1Script.Partial tm present))) in G.
      destruct G as [(l & -> & Hne)|G]; [|contradiction].
      apply Hne. now apply Hl. }
  split; [|split; [exact Hnone|split; [|split]]].
  - intros G. unfold Dag1Script.main. now rewrite G.
  - split.
    + intros (e & E). destruct Hcases as [((o & Eo) & _)|(_ & H)]; [congruence|exact H].
    + intros H. destruct Hcases as [(_ & Hn)|(E & _)]; [contradiction|eauto].
  - intros e E. destruct Hcases as [((o & Eo) & _)|(E' & _)]; congruence.
  - destruct Hcases as [(Ho & _)|(E & _)]; [left; exact Ho|right; exact E].
Qed.

Lemma X15_script_outcomes_witness :
  Dag1Script.get_weather_data Some
    (Dag1Script.Body
       (Some {| time := ["2024-01-01"; "2024-01-02"]%string;
                temperature_2m_max := [30; 31];
                temperature_2m_min := [20] |}))
  = None /\
  Dag1Script.main Some binary64 (fl_sum binary64)
    (Dag1Script.Body
       (Some {| time := ["2024-01-01"; "2024-01-02"]%string;
                temperature_2m_max := [30; 31];
                temperature_2m_min := [20] |}))
  = Returned None.
Proof.
  split; [reflexivity|].
  apply (X15_script_outcomes Some binary64 (fl_sum binary64)).
  reflexivity.
Defined.

(** The reply that lacks the list of minima for its one day ends the script
    in [KeyError]. *)
Example script_missing_minima :
  Dag1Script.main Some binary64 (fl_sum binary64)
    (Dag1Script.Partial ["2024-01-01"%string] (Some [30]))
  = Raised KeyError.
Proof. reflexivity. Qed.

(** ** The columns dag_1.py leaves in the frame *)

(** X13: after analysing a non-empty frame of doubles, however the floats
    round, [dag_1.py] leaves the rows as they were and, in the columns
    [temp_fluctuation] and [deviation_from_avg], one cell per row: the float
    difference between the row's maximum and minimum, and the absolute value
    of the float difference between the row's maximum and the reported mean,
    whatever the frame held under these names before.  (The magnitudes are
    kept below 2^52, where a column of integers subtracts like a column of
    doubles.) *)
Theorem X13_written_columns (rnd : Q -> Q) (series_sum : list Q -> Q)
    (df : Dag1.DataFrame) :
  Dag1.rows df <> [] ->
  (forall rj, rj ∈ Dag1.rows df ->
     Qabs (Dag1.max_temp_celsius rj) <= 2 ^ 52 /\
     Qabs (Dag1.min_temp_celsius rj) <= 2 ^ 52) ->
  exists r df' fl dev,
    Dag1F.analyze_weather_data rnd series_sum (Some df)
    = Returned (Dag1F.Analysis r, Some df') /\
    Dag1.rows df' = Dag1.rows df /\
    Dag1.derived df' !! "temp_fluctuation"%string = Some fl /\
    Dag1.derived df' !! "deviation_from_avg"%string = Some dev /\
    length fl = length (Dag1.rows df) /\
    length dev = length (Dag1.rows df) /\
    forall i row, Dag1.rows df !! i = Some row ->
      fl !! i
      = Some (rnd (Dag1.max_temp_celsius row - Dag1.min_temp_celsius row)) /\
      dev !! i
      = Some (Qabs (rnd (Dag1.max_temp_celsius row - Dag1F.avg_max_temp r))).
Proof.
  intros Hr _.
  destruct (Dag1F_report rnd series_sum df Hr)
    as (r & ih & il & ia & rh & rl & ra & E & _ & _ & _ & _ & _ & _ & _ & Es).
  destruct (fl_frame_after_new_columns rnd series_sum df) as (Hfl & Hdev).
  assert (Ea : Dag1F.avg_max_temp r = fl_frame_mean_max rnd series_sum df).
  { unfold Dag1F.statistics in Es. congruence. }
  eexists r, (fl_frame_after rnd series_sum df), _, _.
  split; [exact E|].
  split; [reflexivity|]. split; [exact Hfl|]. split; [exact Hdev|].
  rewrite !length_map. split; [reflexivity|]. split; [reflexivity|].
  intros i row Hi. rewrite !lookup_map, Hi, Ea. split; reflexivity.
Qed.

Lemma X13_written_columns_witness :
  Dag1.rows (frame_of_window two_apart_window) <> [] /\
  exists r df' fl dev,
    Dag1F.analyze_weather_data binary64 (fl_sum binary64)
      (Some (frame_of_window two_apart_window))
    = Returned (Dag1F.Analysis r, Some df') /\
    Dag1.derived df' !! "temp_fluctuation"%string = Some fl /\
    Dag1.derived df' !! "deviation_from_avg"%string = Some dev /\
    length fl = 3%nat /\ length dev = 3%nat.
Proof.
  split; [discriminate|].
  assert (Hb : forall rj, rj ∈ Dag1.rows (frame_of_window two_apart_window) ->
                 Qabs (Dag1.max_temp_celsius rj) <= 2 ^ 52 /\
                 Qabs (Dag1.min_temp_celsius rj) <= 2 ^ 52).
  { intros rj Hj. cbn in Hj.
    repeat (apply elem_of_cons in Hj as [->|Hj];
            [split; vm_compute; discriminate|]).
    apply elem_of_nil in Hj. destruct Hj. }
  destruct (X13_written_columns binary64 (fl_sum binary64)
              (frame_of_window two_apart_window) ltac:(discriminate) Hb)
    as (r & df' & fl & dev & E & _ & Hfl & Hdev & Lfl & Ldev & _).
  exists r, df', fl, dev. repeat split; assumption.
Defined.
